(** * virustotal-report-labeler: a shallow embedding of [label.py]

    The labeler walks a directory of VirusTotal JSON reports, extracts a
    configurable set of fields from every report (optionally asking the
    external [avclass] tool for a family label) and writes one sorted CSV
    table plus an error log.

    The development follows the structure of the script:
    - [Py]      the Python built-ins the script relies on (JSON values as
                Python objects, truthiness, [str], [d[k]], [split], [join],
                exceptions, [try]/[except]/[finally]);
    - [OsPath]  the [os.path] string functions (POSIX flavour);
    - the world the script runs in (files, error log, console, external
      tool, scheduler) and the methods of [Config] and [Labeler];
    - the properties of the pipeline.

    Strings are byte strings holding UTF-8 text: the comma is a single
    byte that occurs in no multi-byte sequence, and byte-wise lexicographic
    order on UTF-8 coincides with Python's code-point order on [str]. *)

From Stdlib Require Import ZArith Ascii String List Bool Lia.
From stdpp Require Import gmap strings pretty sorting.

Set Warnings "-register-all".
Open Scope Z_scope.

(** ** Python built-ins *)

Module Py.

(** A float is observed by the script in two ways only: its truthiness and
    its [str]/[repr] text. *)
Record pyfloat := PyFloat { float_is_zero : bool; float_repr : string }.

(** The objects [json.load] produces.  A [dict] keeps its items in
    insertion order with distinct keys. *)
Inductive value :=
  | VNone
  | VBool (b : bool)
  | VInt (n : Z)
  | VFloat (f : pyfloat)
  | VStr (s : string)
  | VList (l : list value)
  | VDict (d : list (string * value)).

(** [bool(v)] *)
Definition truthy (v : value) : bool :=
  match v with
  | VNone => false
  | VBool b => b
  | VInt n => negb (n =? 0)
  | VFloat f => negb (float_is_zero f)
  | VStr s => negb (String.eqb s "")
  | VList l => match l with [] => false | _ => true end
  | VDict d => match d with [] => false | _ => true end
  end.

(** [a or b] *)
Definition py_or (a b : value) : value := if truthy a then a else b.

(** [v is not None] *)
Definition is_not_None (v : value) : bool :=
  match v with VNone => false | _ => true end.

(** *** Exceptions *)

Inductive exn :=
  | OSError (msg : string)
  | JSONDecodeError (msg : string)
  | CalledProcessError (msg : string)
  | KeyError (key : string)
  | TypeError (msg : string)
  | IndexError (msg : string)
  | SystemExit (code : Z).

(** [isinstance(e, Exception)]: [SystemExit] derives from [BaseException]
    only, so an [except Exception] clause lets it through. *)
Definition is_Exception (e : exn) : bool :=
  match e with SystemExit _ => false | _ => true end.

(** [str(e)] *)
Definition exn_str (e : exn) : string :=
  match e with
  | OSError m | JSONDecodeError m | CalledProcessError m
  | TypeError m | IndexError m => m
  | KeyError k => "'" +:+ k +:+ "'"
  | SystemExit code => pretty code
  end.

Inductive result (A : Type) :=
  | Ok (a : A)
  | Raise (e : exn).
Arguments Ok {A} a.
Arguments Raise {A} e.

Definition is_Ok {A} (r : result A) : bool :=
  match r with Ok _ => true | Raise _ => false end.

(** Computations over a mutable state [S] that may raise: the state
    reached when an exception is raised is kept, as in Python. *)
Definition M (S A : Type) : Type := S → result A * S.

Definition ret {S A} (a : A) : M S A := λ s, (Ok a, s).
Definition raise {S A} (e : exn) : M S A := λ s, (Raise e, s).
Definition bind {S A B} (m : M S A) (k : A → M S B) : M S B :=
  λ s, match m s with
       | (Ok a, s') => k a s'
       | (Raise e, s') => (Raise e, s')
       end.
Definition get {S} : M S S := λ s, (Ok s, s).
Definition modify {S} (f : S → S) : M S unit := λ s, (Ok tt, f s).
Definition lift_result {S A} (r : result A) : M S A := λ s, (r, s).

(** [try: body  except ...: handler]: [handlers e] is the first clause
    matching [e], if any. *)
Definition try_except {S A} (body : M S A) (handlers : exn → option (M S A))
  : M S A :=
  λ s, match body s with
       | (Ok a, s') => (Ok a, s')
       | (Raise e, s') =>
           match handlers e with
           | Some h => h s'
           | None => (Raise e, s')
           end
       end.

(** [try: body  finally: cleanup]: the cleanup always runs; an exception
    it raises replaces the outcome of the body. *)
Definition try_finally {S A} (body : M S A) (cleanup : M S unit) : M S A :=
  λ s, match body s with
       | (r, s') =>
           match cleanup s' with
           | (Ok _, s'') => (r, s'')
           | (Raise e, s'') => (Raise e, s'')
           end
       end.

(** [for x in l: body x] *)
Fixpoint for_each {S A} (l : list A) (body : A → M S unit) : M S unit :=
  match l with
  | [] => ret tt
  | x :: l' => bind (body x) (λ _, for_each l' body)
  end.

(** *** Subscription [o[k]] with a string key *)

Fixpoint dict_get (d : list (string * value)) (k : string) : option value :=
  match d with
  | [] => None
  | (k', v) :: d' => if String.eqb k' k then Some v else dict_get d' k
  end.

Definition getitem (o : value) (k : string) : result value :=
  match o with
  | VDict d =>
      match dict_get d k with
      | Some v => Ok v
      | None => Raise (KeyError k)
      end
  | VList _ => Raise (TypeError "list indices must be integers or slices, not str")
  | VStr _ => Raise (TypeError "string indices must be integers, not 'str'")
  | VNone | VBool _ | VInt _ | VFloat _ =>
      Raise (TypeError "object is not subscriptable")
  end.

(** *** Strings *)

(** [c.isspace()] for a character of the ASCII range, which UTF-8 encodes
    as one byte: U+0009 to U+000D and U+001C to U+0020. *)
Definition isspace (c : ascii) : bool :=
  let n := N_of_ascii c in
  ((9 <=? n) && (n <=? 13) || (28 <=? n) && (n <=? 32))%N.

(** [c.isspace()] for a character that UTF-8 encodes as the two bytes
    [c1 c2]: U+0085 (C2 85) and U+00A0 (C2 A0). *)
Definition isspace2 (c1 c2 : ascii) : bool :=
  let n1 := N_of_ascii c1 in
  let n2 := N_of_ascii c2 in
  ((n1 =? 194) && ((n2 =? 133) || (n2 =? 160)))%N.

(** [c.isspace()] for a character that UTF-8 encodes as the three bytes
    [c1 c2 c3]: U+1680 (E1 9A 80), U+2000 to U+200A (E2 80 80 to E2 80 8A),
    U+2028, U+2029 and U+202F (E2 80 A8, A9 and AF), U+205F (E2 81 9F) and
    U+3000 (E3 80 80).  No character of four bytes is whitespace. *)
Definition isspace3 (c1 c2 c3 : ascii) : bool :=
  let n1 := N_of_ascii c1 in
  let n2 := N_of_ascii c2 in
  let n3 := N_of_ascii c3 in
  ((n1 =? 225) && (n2 =? 154) && (n3 =? 128)
   || (n1 =? 226) && (n2 =? 128)
      && ((128 <=? n3) && (n3 <=? 138)
          || (n3 =? 168) || (n3 =? 169) || (n3 =? 175))
   || (n1 =? 226) && (n2 =? 129) && (n3 =? 159)
   || (n1 =? 227) && (n2 =? 128) && (n3 =? 128))%N.

(** The run of non-whitespace characters read so far, if one was started;
    it is kept reversed. *)
Definition finish (cur : option string) : list string :=
  option_list (String.rev <$> cur).

Definition extend (c : ascii) (cur : option string) : option string :=
  Some (String c (default EmptyString cur)).

(** [s.split()]: the maximal runs of non-whitespace characters, where
    whitespace is what [str.isspace] accepts.  A whitespace character is
    recognised by its bytes: in UTF-8 text the first byte of a character
    never occurs inside another character, so a match always stands for
    the character itself. *)
Fixpoint split_go (cur : option string) (s : string) : list string :=
  match s with
  | EmptyString => finish cur
  | String c1 s1 =>
      if isspace c1 then finish cur ++ split_go None s1
      else
        match s1 with
        | EmptyString => split_go (extend c1 cur) s1
        | String c2 s2 =>
            if isspace2 c1 c2 then finish cur ++ split_go None s2
            else
              match s2 with
              | EmptyString => split_go (extend c1 cur) s1
              | String c3 s3 =>
                  if isspace3 c1 c2 c3 then finish cur ++ split_go None s3
                  else split_go (extend c1 cur) s1
              end
        end
  end.
Definition split (s : string) : list string := split_go None s.

(** [l[i]] on a list *)
Definition index {A} (l : list A) (i : nat) : result A :=
  match l !! i with
  | Some x => Ok x
  | None => Raise (IndexError "list index out of range")
  end.

(** [s.endswith(suffix)] *)
Fixpoint endswith (s suffix : string) : bool :=
  String.eqb s suffix ||
  match s with
  | EmptyString => false
  | String _ s' => endswith s' suffix
  end.

(** [s[:-n]] for [n > 0] *)
Definition drop_last (n : nat) (s : string) : string :=
  String.substring 0 (String.length s - n) s.

(** [sep.join(items)]: every item has to be a [str]. *)
Fixpoint join_strs (sep : string) (l : list string) : string :=
  match l with
  | [] => ""
  | [s] => s
  | s :: l' => s +:+ sep +:+ join_strs sep l'
  end.

Fixpoint all_strs (l : list value) : option (list string) :=
  match l with
  | [] => Some []
  | VStr s :: l' => cons s <$> all_strs l'
  | _ => None
  end.

Definition join (sep : string) (items : list value) : result string :=
  match all_strs items with
  | Some l => Ok (join_strs sep l)
  | None => Raise (TypeError "sequence item: expected str instance")
  end.

(** *** [repr] and [str] *)

Definition hex_digit (n : N) : ascii :=
  ascii_of_N (if (n <? 10)%N then 48 + n else 87 + n)%N.

(** [repr] of one character inside quotes [q]; bytes above the ASCII range
    belong to printable text and are kept. *)
Definition repr_char (q c : ascii) : string :=
  let n := N_of_ascii c in
  if Ascii.eqb c "\" then "\\"
  else if Ascii.eqb c q then String "\" (String q "")
  else if (n =? 9)%N then "\t"
  else if (n =? 10)%N then "\n"
  else if (n =? 13)%N then "\r"
  else if ((n <? 32) || (n =? 127))%N
       then "\x" +:+ String (hex_digit (n / 16)) (String (hex_digit (n mod 16)) "")
  else String c "".

Fixpoint contains_char (c : ascii) (s : string) : bool :=
  match s with
  | EmptyString => false
  | String c' s' => Ascii.eqb c c' || contains_char c s'
  end.

Fixpoint repr_chars (q : ascii) (s : string) : string :=
  match s with
  | EmptyString => ""
  | String c s' => repr_char q c +:+ repr_chars q s'
  end.

Definition repr_str (s : string) : string :=
  let q := if contains_char "'" s && negb (contains_char "034"%char s)
           then "034"%char else "'"%char in
  String q (repr_chars q s) +:+ String q "".

Fixpoint repr (v : value) : string :=
  match v with
  | VNone => "None"
  | VBool b => if b then "True" else "False"
  | VInt n => pretty n
  | VFloat f => float_repr f
  | VStr s => repr_str s
  | VList l => "[" +:+ join_strs ", " (map repr l) +:+ "]"
  | VDict d =>
      "{" +:+ join_strs ", "
                (map (λ kv, repr_str (fst kv) +:+ ": " +:+ repr (snd kv)) d)
          +:+ "}"
  end.

(** [str(v)] *)
Definition str (v : value) : string :=
  match v with
  | VStr s => s
  | _ => repr v
  end.

(** The line feed character as a string: the ["\n"] of Python. *)
Definition newline : string := String "010"%char "".

(** *** [list.sort(key=...)] with string keys

    Python's sort is stable; a stable sort has one possible result, which
    insertion from the right computes. *)
Section sort.
Context {A : Type} (key : A → string).

Fixpoint insert_by_key (x : A) (l : list A) : list A :=
  match l with
  | [] => [x]
  | y :: l' =>
      if String.leb (key x) (key y)
      then x :: y :: l'
      else y :: insert_by_key x l'
  end.

Definition sort_by_key (l : list A) : list A := foldr insert_by_key [] l.

(** The order of the keys, lifted to the sorted elements. *)
Definition key_le (x y : A) : Prop := String.le (key x) (key y).
End sort.

End Py.

Declare Scope py_scope.
Delimit Scope py_scope with py.
Notation "x <- m ;; k" := (Py.bind m (λ x, k))
  (at level 100, m at next level, right associativity) : py_scope.
Notation "m ;; k" := (Py.bind m (λ _, k))
  (at level 100, right associativity) : py_scope.

(** ** [os.path] on POSIX paths *)

Module OsPath.

(** [(p[:i], p[i:])] for [i = p.rfind('/') + 1] *)
Fixpoint rsplit (p : string) : string * string :=
  match p with
  | EmptyString => ("", "")
  | String c p' =>
      match rsplit p' with
      | (EmptyString, tail) =>
          if Ascii.eqb c "/" then ("/", tail) else ("", String c tail)
      | (head, tail) => (String c head, tail)
      end
  end.

(** [os.path.basename] *)
Definition basename (p : string) : string := snd (rsplit p).

Fixpoint all_slashes (s : string) : bool :=
  match s with
  | EmptyString => true
  | String c s' => Ascii.eqb c "/" && all_slashes s'
  end.

(** [s.rstrip('/')] *)
Fixpoint rstrip_slashes (s : string) : string :=
  match s with
  | EmptyString => ""
  | String c s' =>
      match rstrip_slashes s' with
      | EmptyString => if Ascii.eqb c "/" then "" else String c ""
      | r => String c r
      end
  end.

(** [os.path.dirname] *)
Definition dirname (p : string) : string :=
  let head := fst (rsplit p) in
  if all_slashes head then head else rstrip_slashes head.

(** [os.path.join(a, b)] *)
Definition join (a b : string) : string :=
  if String.prefix "/" b then b
  else if String.eqb a "" || Py.endswith a "/" then a +:+ b
  else a +:+ "/" +:+ b.

End OsPath.

Import Py.
Open Scope py_scope.

(** ** The world of a run *)

(** The text of a file as [json.load] sees it: text it rejects, or the
    encoding of a document.  [json.dumps(data, separators=(',', ':'))] is
    one encoding of [data]. *)
Inductive text :=
  | Garbled (msg : string)
  | Encoded (data : value).

Definition json_loads (t : text) : result value :=
  match t with
  | Encoded data => Ok data
  | Garbled msg => Raise (JSONDecodeError msg)
  end.

Definition json_dumps (data : value) : text := Encoded data.

(** A file that cannot be opened or decoded as UTF-8, or a text file. *)
Inductive file :=
  | Unreadable (msg : string)
  | Readable (t : text).

(** What the external command line did: it could not be run or its output
    could not be captured and decoded as text, or it exited with a status
    and an output. *)
Inductive process :=
  | SpawnFailed (msg : string)
  | Exited (status : Z) (output : string).

(** The surroundings that stay fixed during a run:
    - [isdir] is [os.path.isdir];
    - [walk] is the listing [os.walk] gives, as (root, dirs, files);
    - [writable] tells whether a file can be written at a path: it can be
      opened for writing and what is written reaches it;
    - [left_behind] tells what a write that fails leaves at the path:
      nothing when the file could not be opened, and otherwise the text
      held by the file that [open] created before the write or the close
      failed (on a full medium, say);
    - [shell] is what running a command line through the shell gives.  The
      command line is taken to change no file: the classifier only reads
      its input, and the path of the report, which is put into the command
      line as it is, holds nothing that the shell gives a meaning to;
    - [as_completed] is the order in which the submitted tasks complete;
    - [resolve] is [Path.resolve];
    - [execution_time] is the text of the elapsed time that [label_files]
      measures, with two decimals. *)
Record Env := {
  isdir : string → bool;
  walk : string → list (string * list string * list string);
  writable : string → bool;
  left_behind : string → option text;
  shell : string → process;
  as_completed : list string → list string;
  resolve : string → string;
  execution_time : string
}.

(** What a run changes: the report files and temporary artifacts on disk,
    the messages appended to the error log, the output table once it has
    been opened for writing, and the lines printed on the console.  The
    error log and the output table are files as well; they are kept apart
    from [disk], which holds the files that the tasks read and write: the
    path of the log and the path of the table end in neither [.json] nor
    [.tmp]. *)
Record world := World {
  disk : gmap string file;
  errors : list string;
  report : option string;
  console : list string
}.

Definition set_disk (f : gmap string file → gmap string file) (w : world) :=
  World (f (disk w)) (errors w) (report w) (console w).
Definition add_error (msg : string) (w : world) :=
  World (disk w) (errors w ++ [msg]) (report w) (console w).
Definition set_report (f : option string → option string) (w : world) :=
  World (disk w) (errors w) (f (report w)) (console w).
Definition add_line (msg : string) (w : world) :=
  World (disk w) (errors w) (report w) (console w ++ [msg]).

(** [open(path, encoding="utf-8")] followed by reading the whole file *)
Definition read_file (path : string) : M world text :=
  w <- get ;;
  match disk w !! path with
  | Some (Readable t) => ret t
  | Some (Unreadable msg) => raise (OSError msg)
  | None => raise (OSError "No such file or directory")
  end.

(** [with open(path, "w", encoding="utf-8") as f: f.write(t)]: the file
    is created and holds [t] when it is closed; or it cannot be opened and
    nothing is created; or [open] creates it and the write or the close
    fails, which leaves the file behind with what reached it. *)
Definition write_file (env : Env) (path : string) (t : text) : M world unit :=
  if writable env path
  then modify (set_disk <[path := Readable t]>)
  else
    match left_behind env path with
    | None => raise (OSError "Permission denied")
    | Some rest =>
        modify (set_disk <[path := Readable rest]>) ;;
        raise (OSError "No space left on device")
    end.

(** [os.remove(path)] *)
Definition os_remove (path : string) : M world unit :=
  w <- get ;;
  match disk w !! path with
  | Some _ => modify (set_disk (delete path))
  | None => raise (OSError "No such file or directory")
  end.

(** [logger.error(msg)] *)
Definition logger_error (msg : string) : M world unit :=
  modify (add_error msg).

(** [print(msg)] *)
Definition print (msg : string) : M world unit :=
  modify (add_line msg).

Record CompletedProcess := { returncode : Z; stdout : string }.

(** [subprocess.run(command, shell=True, check=True, text=True,
    capture_output=True)], observed through what it returns or raises. *)
Definition subprocess_run (env : Env) (command : string)
  : result CompletedProcess :=
  match shell env command with
  | SpawnFailed msg => Raise (OSError msg)
  | Exited status output =>
      if status =? 0
      then Ok {| returncode := status; stdout := output |}
      else Raise (CalledProcessError "returned non-zero exit status")
  end.

(** ** [class Config] *)

Module Config.

Record t := mk {
  input_dir : string;
  output_path : string;
  log_path : string;
  family : bool;
  cpu : bool;
  first_seen : bool;
  size : bool;
  md5 : bool
}.

(** [Config.__init__] *)
Definition init (input_dir : string) (family cpu first_seen size md5 : bool)
  : t :=
  {| input_dir := input_dir;
     output_path :=
       OsPath.join (OsPath.dirname input_dir)
                   (OsPath.basename input_dir +:+ "_report_info.csv");
     log_path :=
       OsPath.join (OsPath.dirname input_dir)
                   (OsPath.basename input_dir +:+ "_error.log");
     family := family; cpu := cpu; first_seen := first_seen;
     size := size; md5 := md5 |}.

End Config.

(** ** The tuple [(file_name, family, cpu, first_seen, size, md5)]

    These are also the local variables of [process_json]; [None] stands
    for a field that was not extracted. *)

Module Label.

Record t := mk {
  file_name : string;
  family : value;
  cpu : value;
  first_seen : value;
  size : value;
  md5 : value
}.

Definition set_family (v : value) (l : t) : t :=
  mk (file_name l) v (cpu l) (first_seen l) (size l) (md5 l).
Definition set_cpu (v : value) (l : t) : t :=
  mk (file_name l) (family l) v (first_seen l) (size l) (md5 l).
Definition set_first_seen (v : value) (l : t) : t :=
  mk (file_name l) (family l) (cpu l) v (size l) (md5 l).
Definition set_size (v : value) (l : t) : t :=
  mk (file_name l) (family l) (cpu l) (first_seen l) v (md5 l).
Definition set_md5 (v : value) (l : t) : t :=
  mk (file_name l) (family l) (cpu l) (first_seen l) (size l) v.

End Label.

(** The state of one call of [process_json]: the world and the locals. *)
Record frame := Frame { outer : world; vars : Label.t }.

Definition lift {A} (m : M world A) : M frame A :=
  λ f, match m (outer f) with (r, w) => (r, Frame w (vars f)) end.

Definition assign (upd : Label.t → Label.t) : M frame unit :=
  modify (λ f, Frame (outer f) (upd (vars f))).

(** [if flag: body] *)
Definition when {S} (flag : bool) (body : M S unit) : M S unit :=
  if flag then body else ret tt.

(** [except KeyError: pass] *)
Definition except_KeyError_pass {S} (e : exn) : option (M S unit) :=
  match e with
  | KeyError _ => Some (ret tt)
  | _ => None
  end.

(** [o[k1][k2]...] *)
Fixpoint subscript (o : value) (path : list string) : result value :=
  match path with
  | [] => Ok o
  | k :: path' =>
      match getitem o k with
      | Ok v => subscript v path'
      | Raise e => Raise e
      end
  end.

(** One lookup block of [process_json]:
    [if requested: try: x = data[k1]...[kn]  except KeyError: pass] *)
Definition extract_field (requested : bool) (data : value)
    (path : list string) (set : value → Label.t → Label.t) : M frame unit :=
  when requested
    (try_except
       (v <- lift_result (subscript data path) ;; assign (set v))
       except_KeyError_pass).

(** ** [class Labeler] *)

Section Labeler.

Context (env : Env) (config : Config.t).

(** [Labeler.setup_logger]: the file handler opens the log for appending;
    a log that cannot be written is taken to fail here. *)
Definition setup_logger : M world unit :=
  if writable env (Config.log_path config)
  then ret tt
  else raise (OSError "Permission denied").

(** [Labeler.get_all_files_in_directory]: the paths appended to
    [self.file_list], which [__init__] left empty. *)
Definition get_all_files_in_directory : list string :=
  flat_map (λ '(root, dirs, files),
              flat_map (λ file,
                          if endswith file ".json"
                          then [OsPath.join root file]
                          else [])
                       files)
           (walk env (Config.input_dir config)).

(** [with open(json_file, encoding="utf-8") as f: data = json.load(f)] *)
Definition load (json_file : string) : M world value :=
  t <- read_file json_file ;;
  lift_result (json_loads t).

(** [Labeler.convert_to_one_line] *)
Definition convert_to_one_line (json_file : string) : M world (option text) :=
  try_except
    (data <- load json_file ;;
     ret (Some (json_dumps data)))
    (λ e, match e with
          | JSONDecodeError _ =>
              Some (logger_error ("Error decoding JSON file (" +:+ json_file
                                    +:+ "): " +:+ exn_str e) ;;
                    ret None)
          | SystemExit _ => None
          | _ =>
              Some (logger_error ("Error reading JSON file (" +:+ json_file
                                    +:+ "): " +:+ exn_str e) ;;
                    ret None)
          end).

(** The enrichment step of [process_json], run when the one-line text is
    available: write the temporary artifact, call [avclass], take the
    second token of its output, remove the artifact. *)
Definition classify (json_file : string) (one_line_data : text)
  : M frame unit :=
  lift (write_file env (json_file +:+ ".tmp") one_line_data) ;;
  let command := "avclass -f " +:+ json_file +:+ ".tmp" in
  try_finally
    (try_except
       (result <- lift_result (subprocess_run env command) ;;
        when (returncode result =? 0)
          (token <- lift_result (index (split (stdout result)) 1) ;;
           assign (Label.set_family (VStr token))))
       (λ e, match e with
             | CalledProcessError _ =>
                 Some (lift (logger_error
                   ("AVClass command execution error (" +:+ json_file +:+ ")")))
             | SystemExit _ => None
             | _ =>
                 Some (lift (logger_error
                   ("AVClass processing error (" +:+ json_file +:+ ")")))
             end))
    (lift (os_remove (json_file +:+ ".tmp"))).

(** The [if self.config.family:] block of [process_json]. *)
Definition enrich (json_file : string) : M frame unit :=
  one_line_data <- lift (convert_to_one_line json_file) ;;
  match one_line_data with
  | None => lift (logger_error ("Processing " +:+ json_file))
  | Some one_line_data => classify json_file one_line_data
  end.

(** The four lookup blocks of [process_json], in the order of the source:
    [cpu], [first_seen], [size], [md5]. *)
Definition extract_fields (data : value) : M frame unit :=
  extract_field (Config.cpu config) data
    ["additional_info"; "gandelf"; "header"; "machine"] Label.set_cpu ;;
  extract_field (Config.first_seen config) data
    ["first_seen"] Label.set_first_seen ;;
  extract_field (Config.size config) data ["size"] Label.set_size ;;
  extract_field (Config.md5 config) data ["md5"] Label.set_md5.

(** The body of the [try] statement of [process_json]. *)
Definition process_json_body (json_file : string) : M frame unit :=
  data <- lift (load json_file) ;;
  when (Config.family config) (enrich json_file) ;;
  extract_fields data.

(** [Labeler.process_json] *)
Definition process_json (json_file : string) : M world Label.t :=
  λ w,
    let file_name := drop_last 5 (OsPath.basename json_file) in
    let locals := Label.mk file_name VNone VNone VNone VNone VNone in
    match
      try_except (process_json_body json_file)
        (λ e, match e with
              | JSONDecodeError _ =>
                  Some (lift (logger_error
                    ("Error decoding JSON file (" +:+ json_file +:+ ")")))
              | SystemExit _ => None
              | _ =>
                  Some (lift (logger_error
                    ("Error processing JSON file (" +:+ json_file +:+ "): "
                       +:+ exn_str e)))
              end)
        (Frame w locals)
    with
    | (Ok _, f) => (Ok (vars f), outer f)
    | (Raise e, f) => (Raise e, outer f)
    end.

(** The executor runs every submitted task; tasks touch disjoint files, so
    their effects are those of running them one after the other, here in
    the order in which they complete.  A future keeps the outcome of its
    task. *)
Fixpoint run_tasks (tasks : list string) (w : world)
  : list (result Label.t) * world :=
  match tasks with
  | [] => ([], w)
  | json_file :: tasks' =>
      match process_json json_file w with
      | (r, w') =>
          match run_tasks tasks' w' with
          | (rs, w'') => (r :: rs, w'')
          end
      end
  end.

(** The loop over [as_completed(futures)]: [future.result()] returns the
    tuple or raises again what the task raised. *)
Fixpoint collect (futures : list (result Label.t)) (labels : list Label.t)
  : result (list Label.t) :=
  match futures with
  | [] => Ok labels
  | Ok label :: futures' => collect futures' (labels ++ [label])
  | Raise e :: _ => Raise e
  end.

(** [header] of [label_files] *)
Definition header : list string :=
  ["file_name"]
  ++ (if Config.family config then ["family"] else [])
  ++ (if Config.cpu config then ["CPU"] else [])
  ++ (if Config.first_seen config then ["first_seen"] else [])
  ++ (if Config.size config then ["size"] else [])
  ++ (if Config.md5 config then ["md5"] else []).

(** [row] of [label_files] *)
Definition row (label : Label.t) : list value :=
  [VStr (Label.file_name label)]
  ++ (if Config.family config
      then [py_or (Label.family label) (VStr "")] else [])
  ++ (if Config.cpu config
      then [py_or (Label.cpu label) (VStr "")] else [])
  ++ (if Config.first_seen config
      then [py_or (Label.first_seen label) (VStr "")] else [])
  ++ (if Config.size config
      then [if is_not_None (Label.size label)
            then VStr (str (Label.size label)) else VStr ""]
      else [])
  ++ (if Config.md5 config
      then [py_or (Label.md5 label) (VStr "")] else []).

(** [open(self.config.output_path, encoding="utf-8", mode='w')]; a table
    that cannot be written is taken to fail here. *)
Definition open_report : M world unit :=
  if writable env (Config.output_path config)
  then modify (set_report (λ _, Some ""))
  else raise (OSError "Permission denied").

(** [f.write(s)] on the output table *)
Definition write_report (s : string) : M world unit :=
  modify (set_report (λ r, Some (default "" r +:+ s))).

(** The line written for one label, without its newline. *)
Definition line (label : Label.t) : result string := join "," (row label).

(** [Labeler.label_files]; the progress bar draws on the error stream and
    is left out. *)
Definition label_files (file_list : list string) : M world unit :=
  futures <- (λ w, match run_tasks (as_completed env file_list) w with
                    | (rs, w') => (Ok rs, w')
                    end) ;;
  labels <- lift_result (collect futures []) ;;
  let labels := sort_by_key Label.file_name labels in
  open_report ;;
  write_report (join_strs "," header +:+ newline) ;;
  for_each labels
    (λ label, l <- lift_result (line label) ;; write_report (l +:+ newline)) ;;
  print ("Execution Time: " +:+ execution_time env +:+ " seconds").

(** [Labeler.__init__] *)
Definition init : M world unit :=
  if isdir env (Config.input_dir config)
  then setup_logger
  else (print "Error: Input path must be a directory." ;;
        raise (SystemExit 1)).

(** [Labeler.run] *)
Definition run : M world unit :=
  let file_list := get_all_files_in_directory in
  label_files file_list ;;
  print ("Output file path: " +:+ resolve env (Config.output_path config)) ;;
  print ("Error log path: " +:+ resolve env (Config.log_path config)).

End Labeler.

(** [main], after [parse_arguments] *)
Definition main (env : Env) (input_folder : string)
    (family cpu first_seen size md5 : bool) : M world unit :=
  let config := Config.init input_folder family cpu first_seen size md5 in
  init env config ;;
  run env config.

(** ** What one task computes

    The monadic code of [process_json] is summarised by pure functions of
    what is stored under the path of the report. *)

Definition tmp_of (json_file : string) : string := json_file +:+ ".tmp".

Definition load_outcome (o : option file) : result value :=
  match o with
  | Some (Readable t) => json_loads t
  | Some (Unreadable msg) => Raise (OSError msg)
  | None => Raise (OSError "No such file or directory")
  end.

(** One lookup block on the locals. *)
Definition field_step (requested : bool) (data : value) (path : list string)
    (set : value → Label.t → Label.t) (l : Label.t) : result unit * Label.t :=
  if requested then
    match subscript data path with
    | Ok v => (Ok tt, set v l)
    | Raise (KeyError _) => (Ok tt, l)
    | Raise e => (Raise e, l)
    end
  else (Ok tt, l).

Definition and_then (st : result unit * Label.t)
    (k : Label.t → result unit * Label.t) : result unit * Label.t :=
  match st with
  | (Ok _, l) => k l
  | (Raise e, l) => (Raise e, l)
  end.

(** The four lookup blocks on the locals. *)
Definition fields_outcome (config : Config.t) (data : value) (l : Label.t)
  : result unit * Label.t :=
  and_then (field_step (Config.cpu config) data
              ["additional_info"; "gandelf"; "header"; "machine"]
              Label.set_cpu l) (λ l,
  and_then (field_step (Config.first_seen config) data ["first_seen"]
              Label.set_first_seen l) (λ l,
  and_then (field_step (Config.size config) data ["size"] Label.set_size l)
    (λ l,
  field_step (Config.md5 config) data ["md5"] Label.set_md5 l))).

(** The label the classifier run yields, if any, and what it logs. *)
Definition family_token (p : process) : option string :=
  match p with
  | Exited status output => if status =? 0 then split output !! 1%nat else None
  | SpawnFailed _ => None
  end.

Definition classify_log (json_file : string) (p : process) : list string :=
  match p with
  | SpawnFailed _ => ["AVClass processing error (" +:+ json_file +:+ ")"]
  | Exited status output =>
      if status =? 0 then
        match split output !! 1%nat with
        | Some _ => []
        | None => ["AVClass processing error (" +:+ json_file +:+ ")"]
        end
      else ["AVClass command execution error (" +:+ json_file +:+ ")"]
  end.

Definition add_errors (msgs : list string) (w : world) : world :=
  World (disk w) (errors w ++ msgs) (report w) (console w).

Definition with_family (o : option string) (l : Label.t) : Label.t :=
  match o with
  | Some token => Label.set_family (VStr token) l
  | None => l
  end.

Definition initial_label (json_file : string) : Label.t :=
  Label.mk (drop_last 5 (OsPath.basename json_file))
           VNone VNone VNone VNone VNone.

(** What the [except] clauses at the end of [process_json] log. *)
Definition task_log (json_file : string) (e : exn) : string :=
  match e with
  | JSONDecodeError _ => "Error decoding JSON file (" +:+ json_file +:+ ")"
  | _ => "Error processing JSON file (" +:+ json_file +:+ "): " +:+ exn_str e
  end.

Definition result_log (json_file : string) (r : result unit) : list string :=
  match r with
  | Ok _ => []
  | Raise e => [task_log json_file e]
  end.

Section task_summary.
Context (env : Env) (config : Config.t) (json_file : string).

Definition command : string := "avclass -f " +:+ json_file +:+ ".tmp".

(** Whether the task gets as far as the statement that writes its
    temporary artifact. *)
Definition attempts_artifact (o : option file) : bool :=
  is_Ok (load_outcome o) && Config.family config.

(** What the write of the artifact raises when it fails, and what it
    leaves on disk. *)
Definition write_error : exn :=
  match left_behind env (tmp_of json_file) with
  | None => OSError "Permission denied"
  | Some _ => OSError "No space left on device"
  end.

Definition leftover (d : gmap string file) : gmap string file :=
  match left_behind env (tmp_of json_file) with
  | None => d
  | Some rest => <[tmp_of json_file := Readable rest]> d
  end.

(** The locals when the lookup blocks start, and what they become. *)
Definition enriched_label : Label.t :=
  if Config.family config
  then with_family (family_token (shell env command))
                   (initial_label json_file)
  else initial_label json_file.

Definition task_label (o : option file) : Label.t :=
  match load_outcome o with
  | Raise _ => initial_label json_file
  | Ok data =>
      if Config.family config && negb (writable env (tmp_of json_file))
      then initial_label json_file
      else snd (fields_outcome config data enriched_label)
  end.

Definition task_errors (o : option file) : list string :=
  match load_outcome o with
  | Raise e => [task_log json_file e]
  | Ok data =>
      if Config.family config then
        if writable env (tmp_of json_file)
        then classify_log json_file (shell env command)
             ++ result_log json_file
                  (fst (fields_outcome config data enriched_label))
        else [task_log json_file write_error]
      else result_log json_file
             (fst (fields_outcome config data enriched_label))
  end.

(** The artifact is removed once it has been written; a write that fails
    ends the task before the removal, and the artifact stays as the
    failure left it. *)
Definition task_disk (o : option file) (d : gmap string file)
  : gmap string file :=
  if attempts_artifact o then
    if writable env (tmp_of json_file)
    then delete (tmp_of json_file) d
    else leftover d
  else d.
End task_summary.

(** ** What a run computes *)

(** The file identifier of a report: [os.path.basename(json_file)[:-5]]. *)
Definition identifier (json_file : string) : string :=
  drop_last 5 (OsPath.basename json_file).

(** The last character of a string. *)
Fixpoint last_char (s : string) : option ascii :=
  match s with
  | EmptyString => None
  | String c EmptyString => Some c
  | String _ s' => last_char s'
  end.

(** The text [label_files] has written when it stops: the lines of
    [labels] are appended to [acc] one by one until one cannot be joined. *)
Fixpoint rows_text (config : Config.t) (labels : list Label.t) (acc : string)
  : result unit * string :=
  match labels with
  | [] => (Ok tt, acc)
  | label :: labels' =>
      match line config label with
      | Ok l => rows_text config labels' (acc +:+ (l +:+ newline))
      | Raise e => (Raise e, acc)
      end
  end.

Definition header_line (config : Config.t) : string :=
  join_strs "," (header config) +:+ newline.

(** The sorted labels of a run that starts on disk [d]. *)
Definition run_labels (env : Env) (config : Config.t)
    (file_list : list string) (d : gmap string file) : list Label.t :=
  sort_by_key Label.file_name
    (map (λ f, task_label env config f (d !! f)) (as_completed env file_list)).

(** The scheduler hands back every submitted task once. *)
Definition fair (env : Env) : Prop :=
  ∀ l, as_completed env l ≡ₚ l.

(** The lines of a text, each ended by a line feed. *)
Fixpoint lines_go (cur : string) (s : string) : list string :=
  match s with
  | EmptyString => []
  | String c s' =>
      if Ascii.eqb c "010"
      then String.rev cur :: lines_go "" s'
      else lines_go (String c cur) s'
  end.
Definition lines_of (s : string) : list string := lines_go "" s.

(** ** The columns of the table, written after the specification

    The header lists the active columns in a fixed canonical order; a row
    holds one cell per active column, in the same order.  These
    definitions are compared below with [header] and [row], which follow
    the code. *)

Inductive column :=
  | ColFileName | ColFamily | ColCPU | ColFirstSeen | ColSize | ColMD5.

Global Instance column_eq_dec : EqDecision column.
Proof. solve_decision. Defined.

Definition columns : list column :=
  [ColFileName; ColFamily; ColCPU; ColFirstSeen; ColSize; ColMD5].

Definition column_name (c : column) : string :=
  match c with
  | ColFileName => "file_name"
  | ColFamily => "family"
  | ColCPU => "CPU"
  | ColFirstSeen => "first_seen"
  | ColSize => "size"
  | ColMD5 => "md5"
  end.

Definition requested (config : Config.t) (c : column) : bool :=
  match c with
  | ColFileName => true
  | ColFamily => Config.family config
  | ColCPU => Config.cpu config
  | ColFirstSeen => Config.first_seen config
  | ColSize => Config.size config
  | ColMD5 => Config.md5 config
  end.

Definition active_columns (config : Config.t) : list column :=
  List.filter (requested config) columns.

(** The value a label holds for a column. *)
Definition field_value (c : column) (label : Label.t) : value :=
  match c with
  | ColFileName => VStr (Label.file_name label)
  | ColFamily => Label.family label
  | ColCPU => Label.cpu label
  | ColFirstSeen => Label.first_seen label
  | ColSize => Label.size label
  | ColMD5 => Label.md5 label
  end.

(** The cell written for a column: the size is tested against [None] and
    converted with [str], the other fields go through [value or '']. *)
Definition cell (c : column) (label : Label.t) : value :=
  match c with
  | ColFileName => VStr (Label.file_name label)
  | ColSize =>
      if is_not_None (Label.size label)
      then VStr (str (Label.size label)) else VStr ""
  | _ => py_or (field_value c label) (VStr "")
  end.

(** The number of occurrences of a character, and the number of cells a
    reader of comma-separated text finds on a line. *)
Fixpoint count_char (c : ascii) (s : string) : nat :=
  match s with
  | EmptyString => 0
  | String c' s' => (if Ascii.eqb c c' then 1 else 0) + count_char c s'
  end.

Definition comma_cells (ln : string) : nat := S (count_char "," ln).

(** [set_field c v label] stores [v] as the value of column [c]; the file
    name is not a field that is looked up. *)
Definition set_field (c : column) (v : value) (label : Label.t) : Label.t :=
  match c with
  | ColFileName => label
  | ColFamily => Label.set_family v label
  | ColCPU => Label.set_cpu v label
  | ColFirstSeen => Label.set_first_seen v label
  | ColSize => Label.set_size v label
  | ColMD5 => Label.set_md5 v label
  end.

(** The lookup path of a field inside a report. *)
Definition lookup_path (c : column) : list string :=
  match c with
  | ColCPU => ["additional_info"; "gandelf"; "header"; "machine"]
  | ColFirstSeen => ["first_seen"]
  | ColSize => ["size"]
  | ColMD5 => ["md5"]
  | ColFileName | ColFamily => []
  end.

(** The configuration with the toggle of one column switched off. *)
Definition without (c : column) (config : Config.t) : Config.t :=
  Config.mk (Config.input_dir config) (Config.output_path config)
    (Config.log_path config)
    (if decide (c = ColFamily) then false else Config.family config)
    (if decide (c = ColCPU) then false else Config.cpu config)
    (if decide (c = ColFirstSeen) then false else Config.first_seen config)
    (if decide (c = ColSize) then false else Config.size config)
    (if decide (c = ColMD5) then false else Config.md5 config).

(** The same surroundings with another completion order. *)
Definition reschedule (env : Env) (order : list string → list string) : Env :=
  {| isdir := isdir env; walk := walk env; writable := writable env;
     left_behind := left_behind env; shell := shell env;
     as_completed := order; resolve := resolve env;
     execution_time := execution_time env |}.

(** The lines of a table put together again. *)
Definition unlines (lines : list string) : string :=
  foldr (λ l text, l +:+ newline +:+ text) "" lines.

(** ** Sample inputs *)

Module Sample.

(** Every column requested, on the directory ["d"]. *)
Definition all_columns : Config.t := Config.init "d" true true true true true.

(** Only [size] and [md5], as in the scenario of the specification. *)
Definition size_md5 : Config.t :=
  Config.init "d" false false false true true.

Definition only_first_seen : Config.t :=
  Config.init "d" false false true false false.

Definition only_size : Config.t :=
  Config.init "d" false false false true false.

Definition cpu_size : Config.t :=
  Config.init "d" false true false true false.

Definition family_size : Config.t :=
  Config.init "d" true false false true false.

Definition empty_label (name : string) : Label.t :=
  Label.mk name VNone VNone VNone VNone VNone.

(** The directory ["d"] holds what [files] lists; everything can be
    written, the classifier prints a hash and a family, tasks complete in
    the order of submission. *)
Definition env (files : list string) : Env :=
  {| isdir := λ p, String.eqb p "d";
     walk := λ _, [("d", [], files)];
     writable := λ _, true;
     left_behind := λ _, None;
     shell := λ _, Exited 0 "0f3a family";
     as_completed := λ l, l;
     resolve := λ p, "/work/" +:+ p;
     execution_time := "0.01" |}.

(** The same, on a medium that cannot be written. *)
Definition read_only (files : list string) : Env :=
  {| isdir := λ p, String.eqb p "d";
     walk := λ _, [("d", [], files)];
     writable := λ _, false;
     left_behind := λ _, None;
     shell := λ _, Exited 0 "0f3a family";
     as_completed := λ l, l;
     resolve := λ p, "/work/" +:+ p;
     execution_time := "0.01" |}.

(** The same, on a medium that is full: a file can still be created, and
    stays empty, since nothing that is written to it reaches it. *)
Definition full_medium (files : list string) : Env :=
  {| isdir := λ p, String.eqb p "d";
     walk := λ _, [("d", [], files)];
     writable := λ _, false;
     left_behind := λ _, Some (Garbled "Expecting value");
     shell := λ _, Exited 0 "0f3a family";
     as_completed := λ l, l;
     resolve := λ p, "/work/" +:+ p;
     execution_time := "0.01" |}.


(** Two directories that each hold a report named [x.json]. *)
Definition two_directories : Env :=
  {| isdir := λ p, String.eqb p "d";
     walk := λ _, [("d", ["p"; "q"], []);
                   ("d/p", [], ["x.json"]); ("d/q", [], ["x.json"])];
     writable := λ _, true;
     left_behind := λ _, None;
     shell := λ _, Exited 0 "0f3a family";
     as_completed := λ l, l;
     resolve := λ p, "/work/" +:+ p;
     execution_time := "0.01" |}.

(** A world whose disk holds the given reports. *)
Definition world_with (reports : list (string * file)) : world :=
  World (list_to_map reports) [] None [].

Definition report_of (data : list (string * value)) : file :=
  Readable (Encoded (VDict data)).

(** The scenario of the specification: [a.json] and [c.json] are reports,
    [b.json] is malformed. *)
Definition scenario_files : list string := ["a.json"; "b.json"; "c.json"].
Definition scenario : world :=
  world_with
    [("d/a.json", report_of [("size", VInt 10); ("md5", VStr "aa")]);
     ("d/b.json", Readable (Garbled "Expecting value"));
     ("d/c.json", report_of [("size", VInt 5)])].

(** A label that only holds a size. *)
Definition sized (name : string) (n : Z) : Label.t :=
  Label.mk name VNone VNone VNone (VInt n) VNone.

End Sample.

(** The line [label_files] prints last, and the two lines [run] prints
    after it. *)
Definition time_line (env : Env) : string :=
  "Execution Time: " +:+ execution_time env +:+ " seconds".

Definition summary_lines (env : Env) (config : Config.t) : list string :=
  ["Output file path: " +:+ resolve env (Config.output_path config);
   "Error log path: " +:+ resolve env (Config.log_path config)].

(** * Properties *)

(** ** The built-ins on sample inputs *)

Example basename_sample :
  map OsPath.basename ["a/b/c.json"; "c.json"; "a/"; "//x"]
  = ["c.json"; "c.json"; ""; "x"].
Proof. reflexivity. Qed.

Example dirname_sample :
  map OsPath.dirname ["a/b/c.json"; "c.json"; "/"; "a///b//"; "/x"]
  = ["a/b"; ""; "/"; "a///b"; "/"].
Proof. reflexivity. Qed.

Example join_sample :
  (OsPath.join "a" "b", OsPath.join "a/" "b", OsPath.join "" "b",
   OsPath.join "a" "/b")
  = ("a/b", "a/b", "b", "/b").
Proof. reflexivity. Qed.

Example config_sample :
  (Config.output_path (Config.init "/data/reports" true true true true true),
   Config.log_path (Config.init "reports" true true true true true))
  = ("/data/reports_report_info.csv", "reports_error.log").
Proof. reflexivity. Qed.

Example identifier_sample :
  map (λ p, drop_last 5 (OsPath.basename p)) ["d/sub/0f3a.json"; "x.json"]
  = ["0f3a"; "x"].
Proof. reflexivity. Qed.

Example split_sample :
  (split ("0f3a" +:+ String "009" "Trojan.x  3" +:+ newline), split "  ",
   index (split "0f3a") 1)
  = (["0f3a"; "Trojan.x"; "3"], [],
     Raise (IndexError "list index out of range")).
Proof. reflexivity. Qed.

(** A no-break space (U+00A0, the bytes C2 A0) and a line separator
    (U+2028, the bytes E2 80 A8) separate tokens like a blank does; the
    bytes of any other character (here U+00E9, C3 A9, and U+200B, E2 80 8B)
    stay inside their token. *)
Example split_unicode_sample :
  let nbsp := String "194" (String "160" "") in
  let line_separator := String "226" (String "128" (String "168" "")) in
  let e_acute := String "195" (String "169" "") in
  let zero_width := String "226" (String "128" (String "139" "")) in
  split ("0f3a" +:+ nbsp +:+ "x" +:+ line_separator +:+ "caf" +:+ e_acute
         +:+ zero_width +:+ " family")
  = ["0f3a"; "x"; "caf" +:+ e_acute +:+ zero_width; "family"].
Proof. reflexivity. Qed.

(** The family is the second token also when a no-break space ends the
    first one. *)
Example family_token_sample :
  family_token
    (Exited 0 ("0f3a" +:+ String "194" (String "160" "") +:+ "x family"))
  = Some "x".
Proof. reflexivity. Qed.

Example str_sample :
  map str [VInt 1024; VInt 0; VInt (-7); VStr "a,b"; VBool true;
           VList [VInt 1; VStr "x"]; VDict [("k", VNone)]]
  = ["1024"; "0"; "-7"; "a,b"; "True"; "[1, 'x']"; "{'k': None}"].
Proof. reflexivity. Qed.

Example or_sample :
  map (λ v, py_or v (VStr "")) [VNone; VStr ""; VInt 0; VBool false; VStr "x"]
  = [VStr ""; VStr ""; VStr ""; VStr ""; VStr "x"].
Proof. reflexivity. Qed.

Example sort_sample :
  sort_by_key fst [("b", 1); ("a", 2); ("b", 3); ("a", 4)]
  = [("a", 2); ("a", 4); ("b", 1); ("b", 3)].
Proof. reflexivity. Qed.

(** ** Sorting by a string key *)

Section sort_facts.
Context {A : Type} (key : A → string).

Local Abbreviation key_le := (key_le key).

Local Instance key_le_trans : Transitive key_le.
Proof. intros x y z. unfold key_le. apply transitivity. Qed.

Lemma key_le_leb x y : key_le x y ↔ String.leb (key x) (key y) = true.
Proof. unfold key_le, String.le. apply Is_true_true. Qed.

Lemma key_le_total x y : key_le x y ∨ key_le y x.
Proof. unfold key_le. apply total, _. Qed.

Lemma insert_by_key_Permutation x l : insert_by_key key x l ≡ₚ x :: l.
Proof.
  induction l as [|y l IH]; simpl; [done|].
  destruct (String.leb (key x) (key y)); [done|].
  rewrite IH. apply Permutation_swap.
Qed.

Lemma sort_by_key_Permutation l : sort_by_key key l ≡ₚ l.
Proof.
  induction l as [|x l IH]; simpl; [done|].
  by rewrite insert_by_key_Permutation, IH.
Qed.

Lemma insert_by_key_Sorted x l :
  Sorted key_le l → Sorted key_le (insert_by_key key x l).
Proof.
  induction 1 as [|y l Hl IH Hy]; simpl.
  { repeat constructor. }
  destruct (String.leb (key x) (key y)) eqn:Hxy.
  - constructor; [by constructor|]. constructor. by apply key_le_leb.
  - constructor; [done|].
    assert (key_le y x) as Hyx.
    { destruct (key_le_total x y) as [H%key_le_leb|H]; [congruence|done]. }
    destruct Hy as [|z l' Hz]; simpl.
    + by constructor.
    + destruct (String.leb (key x) (key z)); by constructor.
Qed.

Lemma sort_by_key_Sorted l : Sorted key_le (sort_by_key key l).
Proof.
  induction l as [|x l IH]; simpl; [constructor|].
  by apply insert_by_key_Sorted.
Qed.

(** Two collection orders of the same results sort to the same list as
    soon as results that share a key are equal. *)
Lemma sort_by_key_order_irrelevant l1 l2 :
  l1 ≡ₚ l2 →
  (∀ x y, x ∈ l1 → y ∈ l1 → key x = key y → x = y) →
  sort_by_key key l1 = sort_by_key key l2.
Proof.
  intros Hperm Hkey.
  apply (Sorted_unique_strong key_le); try apply sort_by_key_Sorted.
  - intros x y Hx Hy Hxy Hyx.
    rewrite sort_by_key_Permutation in Hx.
    rewrite sort_by_key_Permutation, <-Hperm in Hy.
    apply Hkey; [done..|].
    unfold key_le in *. by apply (anti_symm String.le).
  - by rewrite !sort_by_key_Permutation.
Qed.

(** Elements with the same key keep their relative order: the sort is
    stable, as [list.sort] is. *)
Lemma insert_by_key_filter k x l :
  filter (λ y, key y = k) (insert_by_key key x l)
  = filter (λ y, key y = k) (x :: l).
Proof.
  induction l as [|y l IH]; simpl; [done|].
  destruct (String.leb (key x) (key y)) eqn:Hxy; [done|].
  rewrite filter_cons, IH, !filter_cons.
  destruct (decide (key y = k)) as [Hy|Hy]; [|done].
  destruct (decide (key x = k)) as [Hx|Hx]; [|done].
  rewrite Hx, Hy in Hxy.
  assert (String.le k k) as H%Is_true_true by done.
  unfold String.le in H. congruence.
Qed.

Lemma sort_by_key_stable k l :
  filter (λ y, key y = k) (sort_by_key key l) = filter (λ y, key y = k) l.
Proof.
  induction l as [|x l IH]; simpl; [done|].
  by rewrite insert_by_key_filter, !filter_cons, IH.
Qed.
End sort_facts.

(** ** The steps of one task *)

Section task_facts.
Context (env : Env) (config : Config.t).

Lemma load_eq json_file w :
  load json_file w = (load_outcome (disk w !! json_file), w).
Proof.
  unfold load, read_file, bind, get, ret, raise, lift_result, load_outcome.
  destruct (disk w !! json_file) as [[msg|t]|]; done.
Qed.

Lemma load_outcome_not_exit o code : load_outcome o ≠ Raise (SystemExit code).
Proof. by destruct o as [[?|[]]|]. Qed.

Lemma convert_to_one_line_eq json_file w :
  convert_to_one_line json_file w =
  match load_outcome (disk w !! json_file) with
  | Ok data => (Ok (Some (json_dumps data)), w)
  | Raise (JSONDecodeError msg) =>
      (Ok None, add_error ("Error decoding JSON file (" +:+ json_file
                             +:+ "): " +:+ msg) w)
  | Raise e =>
      (Ok None, add_error ("Error reading JSON file (" +:+ json_file
                             +:+ "): " +:+ exn_str e) w)
  end.
Proof.
  unfold convert_to_one_line, try_except, bind. rewrite load_eq.
  pose proof (load_outcome_not_exit (disk w !! json_file)) as Hexit.
  destruct (load_outcome _) as [data|[]]; try done.
  by destruct (Hexit code).
Qed.

Lemma extract_field_eq requested data path set w l :
  extract_field requested data path set (Frame w l) =
  match field_step requested data path set l with
  | (r, l') => (r, Frame w l')
  end.
Proof.
  unfold extract_field, field_step, when, try_except, bind, lift_result,
    assign, modify, ret.
  destruct requested; [|done].
  by destruct (subscript data path) as [v|[]].
Qed.

Lemma extract_fields_eq data w l :
  extract_fields config data (Frame w l) =
  match fields_outcome config data l with
  | (r, l') => (r, Frame w l')
  end.
Proof.
  unfold extract_fields, fields_outcome, bind, and_then.
  repeat (rewrite extract_field_eq;
          destruct (field_step _ _ _ _ _) as [[[]|?] ?]; try done).
Qed.

Lemma classify_eq json_file t w l :
  classify env json_file t (Frame w l) =
  if writable env (tmp_of json_file) then
    let p := shell env ("avclass -f " +:+ json_file +:+ ".tmp") in
    (Ok tt,
     Frame (add_errors (classify_log json_file p)
              (set_disk (delete (tmp_of json_file)) w))
           (with_family (family_token p) l))
  else (Raise (write_error env json_file),
        Frame (set_disk (leftover env json_file) w) l).
Proof.
  unfold classify, write_error, leftover, tmp_of, bind, lift, write_file.
  destruct (writable env _).
  2:{ destruct (left_behind env _); by destruct w. }
  cbn -[String.append].
  unfold try_finally, try_except, bind, lift_result, subprocess_run,
    family_token, classify_log, with_family, lift, os_remove, bind, get,
    when, index, assign, modify, logger_error, add_errors, add_error,
    set_disk.
  cbn -[String.append split].
  destruct (shell env _) as [msg|status output]; cbn -[String.append split].
  - rewrite lookup_insert_eq. cbn -[String.append].
    by rewrite delete_insert_eq.
  - destruct (status =? 0) eqn:Hs; cbn -[String.append split].
    + rewrite Hs. cbn -[String.append split].
      destruct (split output !! 1%nat); cbn -[String.append split];
        rewrite lookup_insert_eq; cbn -[String.append];
        rewrite delete_insert_eq, ?app_nil_r; done.
    + rewrite lookup_insert_eq. cbn -[String.append].
      by rewrite delete_insert_eq.
Qed.
End task_facts.

Section process_json_facts.
Context (env : Env) (config : Config.t).

Lemma subscript_raises data path e :
  subscript data path = Raise e → is_Exception e = true.
Proof.
  revert data. induction path as [|k path IH]; intros data; simpl; [done|].
  destruct (getitem data k) as [v|e'] eqn:Hget; [by apply IH|].
  intros [= <-]. unfold getitem in Hget.
  destruct data; simplify_eq; try done.
  by destruct (dict_get _ _); simplify_eq.
Qed.

Lemma field_step_raises requested data path set l e l' :
  field_step requested data path set l = (Raise e, l') →
  is_Exception e = true.
Proof.
  unfold field_step. destruct requested; [|done].
  destruct (subscript data path) as [v|e0] eqn:Hsub; [done|].
  apply subscript_raises in Hsub.
  destruct e0; intros; simplify_eq; done.
Qed.

Lemma and_then_raises st k e l' :
  and_then st k = (Raise e, l') →
  (∀ l1, st = (Raise e, l1) → is_Exception e = true) →
  (∀ l1 l2, k l1 = (Raise e, l2) → is_Exception e = true) →
  is_Exception e = true.
Proof.
  unfold and_then. destruct st as [[[]|e0] l0]; intros H Hst Hk.
  - by eapply Hk.
  - simplify_eq. by eapply (Hst l').
Qed.

Lemma fields_outcome_raises data l e l' :
  fields_outcome config data l = (Raise e, l') → is_Exception e = true.
Proof.
  unfold fields_outcome. intros H.
  repeat (eapply and_then_raises; [exact H|..]; clear H;
          [intros ? H; by eapply field_step_raises|intros ? ? H]).
  by eapply field_step_raises.
Qed.

Lemma enrich_eq json_file data w l :
  load_outcome (disk w !! json_file) = Ok data →
  enrich env json_file (Frame w l) =
  classify env json_file (json_dumps data) (Frame w l).
Proof.
  intros Hload. unfold enrich, bind, lift. cbv beta iota.
  change (outer (Frame w l)) with w.
  rewrite convert_to_one_line_eq, Hload. done.
Qed.

Lemma process_json_body_eq json_file w l :
  process_json_body env config json_file (Frame w l) =
  match load_outcome (disk w !! json_file) with
  | Raise e => (Raise e, Frame w l)
  | Ok data =>
      if Config.family config then
        match classify env json_file (json_dumps data) (Frame w l) with
        | (Ok _, f) => extract_fields config data f
        | (Raise e, f) => (Raise e, f)
        end
      else extract_fields config data (Frame w l)
  end.
Proof.
  unfold process_json_body, bind, lift. cbv beta iota.
  change (outer (Frame w l)) with w. change (vars (Frame w l)) with l.
  rewrite load_eq.
  destruct (load_outcome (disk w !! json_file)) as [data|e] eqn:Hload;
    [|done].
  unfold when. destruct (Config.family config); [|done].
  by rewrite (enrich_eq _ data).
Qed.

Lemma process_json_eq json_file w :
  process_json env config json_file w =
  (Ok (task_label env config json_file (disk w !! json_file)),
   add_errors (task_errors env config json_file (disk w !! json_file))
     (set_disk (task_disk env config json_file (disk w !! json_file)) w)).
Proof.
  unfold process_json, try_except. cbv zeta.
  fold (initial_label json_file).
  rewrite process_json_body_eq.
  unfold task_label, task_errors, task_disk, attempts_artifact,
    enriched_label.
  pose proof (load_outcome_not_exit (disk w !! json_file)) as Hexit.
  destruct (load_outcome (disk w !! json_file)) as [data|e].
  2:{ destruct w. destruct e; try done. by destruct (Hexit code). }
  destruct (Config.family config).
  - rewrite classify_eq. fold (command json_file).
    destruct (writable env (tmp_of json_file)).
    2:{ unfold write_error.
        destruct (left_behind env (tmp_of json_file)); by destruct w. }
    cbv beta iota zeta. cbn [andb negb is_Ok]. rewrite extract_fields_eq.
    destruct (fields_outcome _ _ _) as [[[]|e] l'] eqn:Hf.
    { destruct w. unfold add_errors, set_disk. simpl.
      by rewrite app_nil_r. }
    pose proof (fields_outcome_raises _ _ _ _ Hf) as He.
    destruct w. destruct e; try done.
    all: unfold add_errors, set_disk, lift, logger_error, modify, add_error;
      simpl; by rewrite <-app_assoc.
  - cbn [andb negb is_Ok]. rewrite extract_fields_eq.
    destruct (fields_outcome _ _ _) as [[[]|e] l'] eqn:Hf.
    { destruct w. unfold add_errors, set_disk. simpl.
      by rewrite app_nil_r. }
    pose proof (fields_outcome_raises _ _ _ _ Hf) as He.
    destruct w. by destruct e.
Qed.
End process_json_facts.

(** ** Paths of reports and of temporary artifacts *)

Lemma endswith_app a b suffix :
  endswith b suffix = true → endswith (a +:+ b) suffix = true.
Proof.
  intros Hb. induction a as [|c a IH]; [done|].
  change (String c a +:+ b) with (String c (a +:+ b)).
  cbn [endswith]. rewrite IH. apply orb_true_r.
Qed.

Lemma endswith_last_char s suffix c :
  endswith s suffix = true → last_char suffix = Some c →
  last_char s = Some c.
Proof.
  intros Hs Hc. induction s as [|a s IH]; cbn [endswith] in Hs.
  - rewrite orb_false_r in Hs. apply String.eqb_eq in Hs. by subst.
  - apply orb_true_iff in Hs as [Hs|Hs].
    { apply String.eqb_eq in Hs. by subst. }
    specialize (IH Hs). simpl. destruct s; [done|exact IH].
Qed.

Lemma last_char_app a b :
  b ≠ "" → last_char (a +:+ b) = last_char b.
Proof.
  intros Hb. induction a as [|c a IH]; [done|].
  change (String c a +:+ b) with (String c (a +:+ b)).
  simpl. destruct (a +:+ b) eqn:Hab; [|done].
  destruct a; simpl in Hab; [by subst|done].
Qed.

Lemma json_ne_tmp json_file other :
  endswith json_file ".json" = true → json_file ≠ tmp_of other.
Proof.
  intros Hjson ->.
  apply (endswith_last_char _ _ "n") in Hjson; [|done].
  unfold tmp_of in Hjson. rewrite last_char_app in Hjson; done.
Qed.

Lemma join_endswith root file suffix :
  endswith file suffix = true →
  endswith (OsPath.join root file) suffix = true.
Proof.
  intros H. unfold OsPath.join.
  destruct (String.prefix "/" file); [done|].
  destruct (_ || _); repeat apply endswith_app; done.
Qed.

Lemma get_all_files_json env config :
  Forall (λ f, endswith f ".json" = true)
         (get_all_files_in_directory env config).
Proof.
  unfold get_all_files_in_directory. apply Forall_forall.
  intros f [[[root dirs] files] [_ Hf]]%list_elem_of_In%in_flat_map.
  apply in_flat_map in Hf as [file [_ Hf]].
  destruct (endswith file ".json") eqn:Hjson; [|done].
  destruct Hf as [<-|[]]. by apply join_endswith.
Qed.

(** ** The tasks of a run do not disturb each other *)

Section run_facts.
Context (env : Env) (config : Config.t).

Lemma process_json_disk json_file w p :
  p ≠ tmp_of json_file →
  disk (process_json env config json_file w).2 !! p = disk w !! p.
Proof.
  intros Hp. rewrite process_json_eq. destruct w as [d errs rep con].
  unfold task_disk, leftover. simpl. destruct (attempts_artifact _ _); [|done].
  destruct (writable env _); [by rewrite lookup_delete_ne|].
  destruct (left_behind env _); [by rewrite lookup_insert_ne|done].
Qed.

Lemma run_tasks_eq tasks w :
  Forall (λ f, endswith f ".json" = true) tasks →
  ∃ w',
    run_tasks env config tasks w
    = (map (λ f, Ok (task_label env config f (disk w !! f))) tasks, w')
    ∧ (∀ p, endswith p ".json" = true → disk w' !! p = disk w !! p)
    ∧ errors w'
      = errors w
        ++ concat (map (λ f, task_errors env config f (disk w !! f)) tasks)
    ∧ report w' = report w
    ∧ console w' = console w.
Proof.
  intros Hjson. revert w.
  induction Hjson as [|f tasks Hf Hjson IH]; intros w.
  { exists w. simpl. by rewrite app_nil_r. }
  cbn [run_tasks].
  pose proof (process_json_disk f w) as Hdisk.
  rewrite process_json_eq in Hdisk |- *.
  set (w1 := add_errors _ _) in *. cbn [snd] in Hdisk.
  destruct (IH w1) as (w' & -> & Hd & He & Hr & Hc).
  exists w'. split; [|split; [|split; [|split]]].
  - cbn [map]. f_equal. f_equal.
    apply map_ext_in. intros g Hg. do 2 f_equal.
    apply Hdisk, json_ne_tmp.
    rewrite Forall_forall in Hjson. by apply Hjson, list_elem_of_In.
  - intros p Hp. rewrite Hd by done. by apply Hdisk, json_ne_tmp.
  - rewrite He. cbn [map concat]. rewrite (assoc_L (++)). f_equal.
    f_equal. apply map_ext_in. intros g Hg. f_equal.
    apply Hdisk, json_ne_tmp.
    rewrite Forall_forall in Hjson. by apply Hjson, list_elem_of_In.
  - by rewrite Hr.
  - by rewrite Hc.
Qed.

Lemma collect_Ok (labels acc : list Label.t) :
  collect (map Ok labels) acc = Ok (acc ++ labels).
Proof.
  revert acc. induction labels as [|l labels IH]; intros acc; simpl.
  { by rewrite app_nil_r. }
  by rewrite IH, <-app_assoc.
Qed.

Lemma write_rows_eq labels w acc :
  report w = Some acc →
  for_each labels
    (λ label, l <- lift_result (line config label) ;;
              write_report (l +:+ newline)) w
  = match rows_text config labels acc with
    | (r, txt) => (r, set_report (λ _, Some txt) w)
    end.
Proof.
  revert w acc. induction labels as [|label labels IH]; intros w acc Hw.
  { simpl. unfold ret. destruct w; simpl in *. by subst. }
  cbn [for_each rows_text]. unfold bind at 1 2. unfold lift_result at 1.
  destruct (line config label) as [l|e].
  - unfold write_report at 1, modify at 1.
    rewrite (IH _ (acc +:+ (l +:+ newline))).
    + destruct (rows_text _ _ _). by destruct w.
    + destruct w; simpl in *. by subst.
  - destruct w; simpl in *. by subst.
Qed.

(** [label_files], once the tasks are summarised. *)
Lemma label_files_eq file_list w :
  Forall (λ f, endswith f ".json" = true) file_list →
  fair env →
  ∃ w1,
    (∀ p, endswith p ".json" = true → disk w1 !! p = disk w !! p)
    ∧ errors w1
      = errors w
        ++ concat (map (λ f, task_errors env config f (disk w !! f))
                       (as_completed env file_list))
    ∧ report w1 = report w
    ∧ console w1 = console w
    ∧ label_files env config file_list w
      = if writable env (Config.output_path config) then
          match rows_text config
                  (run_labels env config file_list (disk w))
                  (header_line config) with
          | (Ok _, txt) =>
              (Ok tt, add_line (time_line env) (set_report (λ _, Some txt) w1))
          | (Raise e, txt) => (Raise e, set_report (λ _, Some txt) w1)
          end
        else (Raise (OSError "Permission denied"), w1).
Proof.
  intros Hjson Hfair.
  assert (Forall (λ f, endswith f ".json" = true)
                 (as_completed env file_list)) as Hjson'.
  { by rewrite (Hfair file_list). }
  destruct (run_tasks_eq _ w Hjson') as (w1 & Hrun & Hd & He & Hr & Hc).
  exists w1. repeat (split; [done|]).
  unfold label_files, bind at 1. rewrite Hrun.
  unfold bind at 1, lift_result at 1.
  rewrite <-(map_map (λ f, task_label env config f (disk w !! f)) Ok).
  rewrite collect_Ok, app_nil_l.
  fold (run_labels env config file_list (disk w)).
  unfold bind at 1, open_report.
  destruct (writable env (Config.output_path config)); [|done].
  unfold modify at 1, bind at 1, write_report at 1, modify at 1.
  unfold bind at 1.
  rewrite (write_rows_eq _ _ (header_line config)).
  - destruct (rows_text _ _ _) as [[[]|e] txt]; by destruct w1.
  - by destruct w1.
Qed.
End run_facts.

(** ** Header and rows *)

Section row_facts.
Context (config : Config.t).

Lemma header_columns :
  header config = map column_name (active_columns config).
Proof.
  unfold header, active_columns, columns. simpl.
  by destruct (Config.family config), (Config.cpu config),
    (Config.first_seen config), (Config.size config), (Config.md5 config).
Qed.

Lemma row_columns label :
  row config label = map (λ c, cell c label) (active_columns config).
Proof.
  unfold row, active_columns, columns. simpl.
  by destruct (Config.family config), (Config.cpu config),
    (Config.first_seen config), (Config.size config), (Config.md5 config).
Qed.

Lemma row_length label :
  length (row config label) = length (header config).
Proof. by rewrite row_columns, header_columns, !length_map. Qed.

Lemma active_columns_requested c :
  c ∈ active_columns config ↔ requested config c = true.
Proof.
  unfold active_columns. rewrite list_elem_of_In, filter_In.
  split; [by intros [_ ?]|]. intros Hc. split; [|done].
  unfold columns. destruct c; simpl; tauto.
Qed.
End row_facts.

(** ** Joining strings *)

Lemma all_strs_Some l strs :
  all_strs l = Some strs → l = map VStr strs.
Proof.
  revert strs. induction l as [|v l IH]; intros strs; simpl.
  { by intros [= <-]. }
  destruct v; try done.
  destruct (all_strs l) as [strs'|]; [|done].
  intros [= <-]. simpl. f_equal. by apply IH.
Qed.

Lemma all_strs_map strs : all_strs (map VStr strs) = Some strs.
Proof. induction strs as [|s strs IH]; simpl; [done|]. by rewrite IH. Qed.

Lemma string_app_nil_r s : s +:+ "" = s.
Proof.
  induction s as [|c s IH]; [done|].
  change (String c s +:+ "") with (String c (s +:+ "")). by rewrite IH.
Qed.

Lemma string_app_assoc a b c : (a +:+ b) +:+ c = a +:+ (b +:+ c).
Proof.
  induction a as [|x a IH]; [done|].
  change (String x a +:+ b) with (String x (a +:+ b)).
  change (String x (a +:+ b) +:+ c) with (String x ((a +:+ b) +:+ c)).
  by rewrite IH.
Qed.

Lemma count_char_app c a b :
  count_char c (a +:+ b) = (count_char c a + count_char c b)%nat.
Proof.
  induction a as [|c' a IH]; [done|].
  change (String c' a +:+ b) with (String c' (a +:+ b)).
  simpl. rewrite IH. lia.
Qed.

Lemma contains_char_count c s :
  contains_char c s = true → (1 ≤ count_char c s)%nat.
Proof.
  induction s as [|c' s IH]; simpl; [done|].
  destruct (Ascii.eqb c c'); simpl; [lia|]. intros H. apply IH in H. lia.
Qed.

Lemma join_strs_cons sep s strs :
  strs ≠ [] → join_strs sep (s :: strs) = s +:+ sep +:+ join_strs sep strs.
Proof. by destruct strs. Qed.

(** A line joined with commas has at least one comma between any two
    items, on top of the commas inside the items. *)
Lemma join_strs_commas strs s :
  s ∈ strs →
  (length strs + count_char "," s ≤ comma_cells (join_strs "," strs))%nat.
Proof.
  unfold comma_cells. induction strs as [|s' strs IH]; [by intros ?%elem_of_nil|].
  destruct strs as [|s'' strs].
  { intros ->%list_elem_of_singleton. simpl. lia. }
  rewrite join_strs_cons by done. rewrite !count_char_app.
  intros [->|Hs]%elem_of_cons.
  - change (count_char "," ",") with 1%nat.
    assert (length (s'' :: strs) ≤ S (count_char "," (join_strs "," (s'' :: strs))))%nat.
    { clear. induction strs as [|t strs IH] in s'' |- *; simpl; [lia|].
      specialize (IH t). rewrite !count_char_app.
      change (count_char "," ",") with 1%nat. simpl in IH. lia. }
    simpl length in *. lia.
  - specialize (IH Hs). change (count_char "," ",") with 1%nat.
    simpl length in *. lia.
Qed.

Lemma join_strs_contains sep strs s :
  s ∈ strs → ∃ pre post, join_strs sep strs = pre +:+ s +:+ post.
Proof.
  induction strs as [|s' strs IH]; [by intros ?%elem_of_nil|].
  destruct strs as [|s'' strs].
  { intros ->%list_elem_of_singleton. exists "", "". simpl.
    by rewrite string_app_nil_r. }
  rewrite join_strs_cons by done.
  intros [->|Hs]%elem_of_cons.
  - by exists "", (sep +:+ join_strs sep (s'' :: strs)).
  - destruct (IH Hs) as (pre & post & ->).
    exists (s' +:+ sep +:+ pre), post.
    by rewrite !string_app_assoc.
Qed.

(** * The claims *)

(** ** Rendering of cells *)

Lemma cell_other_field c c' v label :
  c ≠ c' → cell c' (set_field c v label) = cell c' label.
Proof. by destruct c, c', label. Qed.

Lemma cell_string c s label :
  field_value c label = VStr s → s ≠ "" → cell c label = VStr s.
Proof.
  intros Hv Hs. destruct c; simpl in *; rewrite ?Hv; try done;
    unfold py_or; simpl; by destruct s.
Qed.

(** C9: a field value that contains a comma is written as it is, without
    quoting or escaping, so the line of its row has more comma-separated
    cells than the header has columns. *)
Theorem C9_comma_written_verbatim config label c s ln :
  requested config c = true →
  field_value c label = VStr s →
  contains_char "," s = true →
  line config label = Ok ln →
  cell c label = VStr s
  ∧ (∃ pre post, ln = pre +:+ s +:+ post)
  ∧ (length (header config) < comma_cells ln)%nat.
Proof.
  intros Hreq Hv Hcomma Hline.
  assert (cell c label = VStr s) as Hcell.
  { apply cell_string; [done|]. by intros ->. }
  split; [done|].
  unfold line, join in Hline.
  destruct (all_strs (row config label)) as [strs|] eqn:Hstrs; [|done].
  injection Hline as <-. apply all_strs_Some in Hstrs.
  assert (s ∈ strs) as Hs.
  { assert (VStr s ∈ row config label) as Hin.
    { rewrite row_columns. apply list_elem_of_fmap. exists c.
      split; [done|]. by apply active_columns_requested. }
    rewrite Hstrs in Hin. apply list_elem_of_fmap in Hin as (s' & [= ->] & ?).
    done. }
  split; [by apply join_strs_contains|].
  pose proof (join_strs_commas strs s Hs) as Hcount.
  pose proof (contains_char_count _ _ Hcomma).
  rewrite <-row_length with (label := label), Hstrs, length_map. lia.
Qed.

Lemma C9_witness :
  let label := Label.mk "f" VNone VNone VNone VNone (VStr "a,b") in
  cell ColMD5 label = VStr "a,b"
  ∧ (∃ pre post, "f,,,,,a,b" = pre +:+ "a,b" +:+ post)
  ∧ (length (header Sample.all_columns) < comma_cells "f,,,,,a,b")%nat.
Proof.
  apply (C9_comma_written_verbatim Sample.all_columns
           (Label.mk "f" VNone VNone VNone VNone (VStr "a,b")) ColMD5);
    reflexivity.
Defined.

(** C10: in the family, CPU, first_seen and md5 columns a value that is
    present but falsy (such as the empty string, 0 or False) is written
    like an absent field, because these columns go through [value or '']:
    when the column is requested, the row that [label_files] builds holds
    the empty string under the header of the column, and the row and the
    line are those of the absent field.  The size column is tested against
    [None] instead: under the header [size] the row holds the text 0 for a
    size of 0, and the empty string for an absent size. *)
Theorem C10_falsy_values_render_empty config label c v :
  c ∈ [ColFamily; ColCPU; ColFirstSeen; ColMD5] →
  v ∈ [VStr ""; VInt 0; VBool false] →
  (requested config c = true →
   ∃ i, header config !! i = Some (column_name c)
        ∧ row config (set_field c v label) !! i = Some (VStr "")
        ∧ row config (set_field c VNone label) !! i = Some (VStr ""))
  ∧ row config (set_field c v label) = row config (set_field c VNone label)
  ∧ line config (set_field c v label) = line config (set_field c VNone label)
  ∧ (Config.size config = true →
     ∃ j, header config !! j = Some "size"
          ∧ row config (set_field ColSize (VInt 0) label) !! j
            = Some (VStr "0")
          ∧ row config (set_field ColSize VNone label) !! j
            = Some (VStr "")).
Proof.
  intros Hc Hv.
  assert (truthy v = false) as Hfalsy.
  { repeat (apply elem_of_cons in Hv as [->|Hv]; [done|]).
    by apply elem_of_nil in Hv. }
  assert (cell c (set_field c v label) = VStr ""
          ∧ cell c (set_field c VNone label) = VStr "") as [Hcell Hnone].
  { repeat (apply elem_of_cons in Hc as [->|Hc];
            [by unfold cell, py_or; simpl; rewrite Hfalsy|]).
    by apply elem_of_nil in Hc. }
  assert (row config (set_field c v label)
          = row config (set_field c VNone label)) as Hrow.
  { rewrite !row_columns. apply map_ext. intros c'.
    destruct (decide (c = c')) as [<-|Hne]; [congruence|].
    by rewrite !cell_other_field. }
  split; [|split; [done|split; [unfold line; by rewrite Hrow|]]].
  - intros [i Hi]%active_columns_requested%list_elem_of_lookup.
    exists i. rewrite header_columns, !row_columns.
    change (map ?f ?l) with (f <$> l).
    by rewrite !list_lookup_fmap, Hi; simpl; rewrite Hcell, Hnone.
  - intros Hsize.
    assert (ColSize ∈ active_columns config) as [j Hj]%list_elem_of_lookup
      by by apply active_columns_requested.
    exists j. rewrite header_columns, !row_columns.
    change (map ?f ?l) with (f <$> l).
    by rewrite !list_lookup_fmap, Hj.
Qed.

Lemma C10_witness :
  let zero := set_field ColFirstSeen (VInt 0) (Sample.empty_label "f") in
  let none := set_field ColFirstSeen VNone (Sample.empty_label "f") in
  (∃ i, header Sample.all_columns !! i = Some "first_seen"
        ∧ row Sample.all_columns zero !! i = Some (VStr "")
        ∧ row Sample.all_columns none !! i = Some (VStr ""))
  ∧ line Sample.all_columns zero = line Sample.all_columns none
  ∧ ∃ j, header Sample.all_columns !! j = Some "size"
         ∧ row Sample.all_columns
               (set_field ColSize (VInt 0) (Sample.empty_label "f")) !! j
           = Some (VStr "0")
         ∧ row Sample.all_columns
               (set_field ColSize VNone (Sample.empty_label "f")) !! j
           = Some (VStr "").
Proof.
  destruct (C10_falsy_values_render_empty Sample.all_columns
              (Sample.empty_label "f") ColFirstSeen (VInt 0))
    as (Hcell & _ & Hline & Hsize).
  - apply elem_of_cons; right. apply elem_of_cons; right.
    apply elem_of_cons; left. reflexivity.
  - apply elem_of_cons; right. apply elem_of_cons; left. reflexivity.
  - split; [apply Hcell; reflexivity|].
    split; [exact Hline|apply Hsize; reflexivity].
Defined.

(** The claim C6 as it is stated fails for a number outside the size
    column: a first_seen value of 0 gives an emitted row whose cell is
    empty, not the decimal text of 0. *)
Lemma C6_counterexample :
  let label := set_field ColFirstSeen (VInt 0) (Sample.empty_label "x") in
  requested Sample.only_first_seen ColFirstSeen = true
  ∧ field_value ColFirstSeen label = VInt 0
  ∧ line Sample.only_first_seen label = Ok "x,"
  ∧ cell ColFirstSeen label ≠ VStr (pretty 0).
Proof. by repeat split. Qed.

(** C6, amended: the cells of a row follow the column order of the
    header, an absent field gives the empty string, and an integer in the
    size column is written as its decimal text. *)
Theorem C6_cells_follow_header config label :
  header config = map column_name (active_columns config)
  ∧ row config label = map (λ c, cell c label) (active_columns config)
  ∧ line config label = join "," (row config label)
  ∧ (∀ c, c ≠ ColFileName → field_value c label = VNone →
          cell c label = VStr "")
  ∧ (∀ n, Label.size label = VInt n → cell ColSize label = VStr (pretty n)).
Proof.
  split; [apply header_columns|]. split; [apply row_columns|].
  split; [done|]. split.
  - intros c Hc Hv. destruct c; simpl in *; by rewrite ?Hv.
  - intros n Hn. simpl. by rewrite Hn.
Qed.

(** ** Order of the rows *)




(** ** Field lookups *)

Section field_facts.
Context (config : Config.t).

Lemma field_step_absent requested data path set l k :
  subscript data path = Raise (KeyError k) →
  field_step requested data path set l = (Ok tt, l).
Proof. unfold field_step. intros ->. by destruct requested. Qed.

Lemma and_then_ext st k k' :
  (∀ l, k l = k' l) → and_then st k = and_then st k'.
Proof. intros H. unfold and_then. by destruct st as [[[]|?] ?]. Qed.

Lemma field_step_keeps requested data path set l c :
  (requested = true → ∀ v l, field_value c (set v l) = field_value c l) →
  field_value c (field_step requested data path set l).2 = field_value c l.
Proof.
  unfold field_step. intros H. destruct requested; [|done].
  destruct (subscript data path) as [v|[]]; simpl; auto.
Qed.

Lemma and_then_keeps c st k l0 :
  field_value c st.2 = field_value c l0 →
  (∀ l, field_value c (k l).2 = field_value c l) →
  field_value c (and_then st k).2 = field_value c l0.
Proof.
  unfold and_then. destruct st as [[[]|?] l]; simpl; [|done].
  intros <- Hk. apply Hk.
Qed.

(** The lookup blocks leave alone the file name, the family and every
    field that is not requested. *)
Lemma fields_outcome_keeps c data l :
  requested config c = false ∨ c = ColFileName ∨ c = ColFamily →
  field_value c (fields_outcome config data l).2 = field_value c l.
Proof.
  intros Hc. unfold fields_outcome.
  repeat (apply and_then_keeps; [|intros ?]); apply field_step_keeps;
    intros Hreq v l'; destruct c, l'; simpl in *;
    by (done || (destruct Hc as [?|[?|?]]; congruence)).
Qed.

Lemma fields_outcome_without c data l k :
  c ∈ [ColCPU; ColFirstSeen; ColSize; ColMD5] →
  subscript data (lookup_path c) = Raise (KeyError k) →
  fields_outcome (without c config) data l = fields_outcome config data l.
Proof.
  intros Hc Hk.
  assert (∀ req set l',
            field_step req data (lookup_path c) set l' = (Ok tt, l'))
    as Hstep by (intros; by eapply field_step_absent).
  clear Hk. unfold fields_outcome.
  assert (c = ColCPU ∨ c = ColFirstSeen ∨ c = ColSize ∨ c = ColMD5)
    as [-> | [-> | [-> | ->]]].
  { repeat (apply elem_of_cons in Hc as [->|Hc]; [tauto|]).
    by apply elem_of_nil in Hc. }
  all: simpl in *;
    repeat (rewrite ?Hstep; simpl;
            first [reflexivity | apply and_then_ext; intros ?]).
Qed.
End field_facts.

Lemma family_without c config :
  c ≠ ColFamily → Config.family (without c config) = Config.family config.
Proof. intros Hc. simpl. by destruct (decide (c = ColFamily)). Qed.

Lemma task_without env config json_file o data c k :
  c ∈ [ColCPU; ColFirstSeen; ColSize; ColMD5] →
  load_outcome o = Ok data →
  subscript data (lookup_path c) = Raise (KeyError k) →
  task_label env (without c config) json_file o
  = task_label env config json_file o
  ∧ task_errors env (without c config) json_file o
    = task_errors env config json_file o
  ∧ task_disk env (without c config) json_file o
    = task_disk env config json_file o.
Proof.
  intros Hc Hload Hk.
  assert (c ≠ ColFamily) as Hfam.
  { intros ->. repeat (apply elem_of_cons in Hc as [?|Hc]; [done|]).
    by apply elem_of_nil in Hc. }
  unfold task_label, task_errors, task_disk, attempts_artifact, enriched_label.
  rewrite Hload, (family_without c config Hfam).
  by rewrite !(fields_outcome_without config c data _ k Hc Hk).
Qed.

Lemma enriched_label_field env config json_file c :
  c ≠ ColFamily → c ≠ ColFileName →
  field_value c (enriched_label env config json_file) = VNone.
Proof.
  intros Hc Hc'. unfold enriched_label, with_family.
  destruct (Config.family config); [destruct (family_token _)|];
    by destruct c.
Qed.

(** The claim C4 as it is stated fails when the lookup path of the CPU
    type runs into a value that is not an object: the machine field is
    missing from the record, the lookup raises [TypeError], which no
    [except KeyError] clause catches, and the size that the record holds
    is never extracted. *)
Lemma C4_counterexample :
  let data := [("additional_info", VNone); ("size", VInt 10)] in
  let w := Sample.world_with [("d/a.json", Sample.report_of data)] in
  load_outcome (disk w !! "d/a.json") = Ok (VDict data)
  ∧ is_Ok (subscript (VDict data) (lookup_path ColCPU)) = false
  ∧ subscript (VDict data) (lookup_path ColSize) = Ok (VInt 10)
  ∧ (process_json (Sample.env ["a.json"]) Sample.cpu_size "d/a.json" w).1
    = Ok (Sample.empty_label "a")
  ∧ (process_json (Sample.env ["a.json"]) Sample.only_size "d/a.json" w).1
    = Ok (Sample.sized "a" 10).
Proof. by vm_compute. Qed.

(** C4, amended: for a parsed record and a requested field whose key is
    absent from the object that should hold it (the lookup raises
    [KeyError]), the task gives exactly what it gives when the field is
    not requested at all: the cell of that column is empty and no other
    field is blocked or altered. *)
Theorem C4_absent_key_is_isolated env config json_file w data c k :
  c ∈ [ColCPU; ColFirstSeen; ColSize; ColMD5] →
  load_outcome (disk w !! json_file) = Ok data →
  subscript data (lookup_path c) = Raise (KeyError k) →
  ∃ label w',
    process_json env config json_file w = (Ok label, w')
    ∧ process_json env (without c config) json_file w = (Ok label, w')
    ∧ field_value c label = VNone
    ∧ cell c label = VStr "".
Proof.
  intros Hc Hload Hk.
  destruct (task_without env config json_file _ data c k Hc Hload Hk)
    as (Hlabel & Herrors & Hdisk).
  eexists _, _. split; [apply process_json_eq|].
  split; [by rewrite process_json_eq, Hlabel, Herrors, Hdisk|].
  assert (c ≠ ColFamily ∧ c ≠ ColFileName) as [Hfam Hname].
  { split; intros ->;
      repeat (apply elem_of_cons in Hc as [?|Hc]; [done|]);
      by apply elem_of_nil in Hc. }
  assert (field_value c (task_label env config json_file
                           (disk w !! json_file)) = VNone) as Hnone.
  { rewrite <-Hlabel. unfold task_label. rewrite Hload.
    destruct (_ && _); [by destruct c|].
    rewrite fields_outcome_keeps.
    - rewrite <-(enriched_label_field env config json_file c) by done.
      unfold enriched_label. by rewrite family_without.
    - left. simpl. by destruct c. }
  split; [done|]. destruct c; simpl in *; by rewrite ?Hnone.
Qed.

Lemma C4_witness :
  let data := [("size", VInt 10)] in
  let w := Sample.world_with [("d/a.json", Sample.report_of data)] in
  ∃ label w',
    process_json (Sample.env ["a.json"]) Sample.size_md5 "d/a.json" w
    = (Ok label, w')
    ∧ process_json (Sample.env ["a.json"]) (without ColMD5 Sample.size_md5)
        "d/a.json" w = (Ok label, w')
    ∧ field_value ColMD5 label = VNone
    ∧ cell ColMD5 label = VStr "".
Proof.
  apply (C4_absent_key_is_isolated (Sample.env ["a.json"]) Sample.size_md5
           "d/a.json" _ (VDict [("size", VInt 10)]) ColMD5 "md5").
  - do 3 (apply elem_of_cons; right). apply elem_of_cons; left.
    reflexivity.
  - reflexivity.
  - reflexivity.
Defined.

(** ** The enrichment step *)

Section enrich_facts.
Context (env : Env) (config : Config.t).






End enrich_facts.




(** C3: the code leaves the temporary artifact behind when it has been
    created and its write fails.  On a medium that is full, with family
    labeling enabled, [open] creates [d/a.json.tmp] and the write raises
    before the [try] statement is entered whose [finally] clause removes
    the artifact: the task logs the failure, returns, and the artifact is
    still on disk.  On a medium that can be written the same task leaves
    no artifact. *)
Theorem C3_failed_write_leaves_artifact :
  let data := VDict [("size", VInt 10)] in
  let w := Sample.world_with [("d/a.json", Readable (Encoded data))] in
  let full := Sample.full_medium ["a.json"] in
  let written := write_file full (tmp_of "d/a.json") (json_dumps data) w in
  let task := process_json full Sample.family_size "d/a.json" w in
  disk w !! tmp_of "d/a.json" = None
  ∧ written.1 = Raise (OSError "No space left on device")
  ∧ is_Some (disk written.2 !! tmp_of "d/a.json")
  ∧ task.1 = Ok (Sample.empty_label "a")
  ∧ errors task.2
    = ["Error processing JSON file (d/a.json): No space left on device"]
  ∧ is_Some (disk task.2 !! tmp_of "d/a.json")
  ∧ disk (process_json (Sample.env ["a.json"]) Sample.family_size
            "d/a.json" w).2 !! tmp_of "d/a.json" = None.
Proof. vm_compute. repeat split; by eexists. Qed.

(** ** The table of a run *)

Section table_facts.
Context (env : Env) (config : Config.t).

Lemma rows_text_Ok labels acc txt :
  rows_text config labels acc = (Ok tt, txt) →
  ∃ lines,
    Forall2 (λ label ln, line config label = Ok ln) labels lines
    ∧ txt = acc +:+ unlines lines.
Proof.
  revert acc. induction labels as [|label labels IH]; intros acc; simpl.
  { intros [= <-]. exists []. split; [constructor|].
    simpl. by rewrite string_app_nil_r. }
  destruct (line config label) as [ln|e] eqn:Hline; [|done].
  intros (lines & Hlines & ->)%IH. exists (ln :: lines).
  split; [by constructor|]. simpl. by rewrite !string_app_assoc.
Qed.

Lemma rows_text_Raise labels acc e txt :
  rows_text config labels acc = (Raise e, txt) →
  ∃ label, label ∈ labels ∧ line config label = Raise e.
Proof.
  revert acc. induction labels as [|label labels IH]; intros acc; simpl.
  { done. }
  destruct (line config label) as [ln|e'] eqn:Hline.
  - intros (label' & ? & ?)%IH. exists label'. split; [by right|done].
  - intros [= -> _]. exists label. split; [by left|done].
Qed.

Lemma task_label_file_name json_file o :
  Label.file_name (task_label env config json_file o) = identifier json_file.
Proof.
  unfold task_label. destruct (load_outcome o) as [data|e]; [|done].
  destruct (_ && _); [done|].
  change (Label.file_name ?l) with
    (match field_value ColFileName l with VStr s => s | _ => "" end).
  rewrite fields_outcome_keeps by auto.
  unfold enriched_label. destruct (Config.family config); [|done].
  by destruct (family_token _).
Qed.

Lemma task_label_load_failed json_file o e :
  load_outcome o = Raise e →
  task_label env config json_file o = initial_label json_file
  ∧ task_errors env config json_file o = [task_log json_file e].
Proof. intros H. unfold task_label, task_errors. by rewrite H. Qed.

(** [run], once the tasks are summarised: the outcome is that of writing
    the table, and the elapsed time and the two locations are printed
    when it succeeds. *)
Lemma run_eq w :
  fair env →
  ∃ w1,
    errors w1
    = errors w
      ++ concat (map (λ f, task_errors env config f (disk w !! f))
                     (as_completed env (get_all_files_in_directory env config)))
    ∧ (∀ p, endswith p ".json" = true → disk w1 !! p = disk w !! p)
    ∧ report w1 = report w
    ∧ ∃ w2,
        errors w2 = errors w1 ∧ disk w2 = disk w1
        ∧ run env config w
          = if writable env (Config.output_path config) then
              match rows_text config
                      (run_labels env config
                         (get_all_files_in_directory env config) (disk w))
                      (header_line config) with
              | (r, txt) => (r, set_report (λ _, Some txt) w2)
              end
            else (Raise (OSError "Permission denied"), w1).
Proof.
  intros Hfair.
  destruct (label_files_eq env config _ w (get_all_files_json env config)
              Hfair) as (w1 & Hd & He & Hr & Hc & Hlabel).
  exists w1. repeat (split; [done|]).
  unfold run. cbv zeta. unfold bind at 1. rewrite Hlabel.
  destruct (writable env (Config.output_path config)); [|by exists w1].
  destruct (rows_text _ _ _) as [[[]|e] txt].
  - eexists (add_line _ (add_line _ (add_line _ w1))).
    split; [done|]. split; [done|].
    unfold bind, print, modify. by destruct w1.
  - by exists w1.
Qed.
End table_facts.

(** ** Rows and files *)

(** The claim C1 as it is stated fails on the scenario of the
    specification: [b.json] is discovered and cannot be parsed, the run
    logs the failure, and the table still holds a row for it, made of its
    identifier and empty cells. *)
Lemma C1_counterexample :
  let env := Sample.env Sample.scenario_files in
  ∃ w',
    run env Sample.size_md5 Sample.scenario = (Ok tt, w')
    ∧ "d/b.json" ∈ get_all_files_in_directory env Sample.size_md5
    ∧ load_outcome (disk Sample.scenario !! "d/b.json")
      = Raise (JSONDecodeError "Expecting value")
    ∧ errors w' = ["Error decoding JSON file (d/b.json)"]
    ∧ lines_of <$> report w'
      = Some ["file_name,size,md5"; "a,10,aa"; "b,,"; "c,5,"].
Proof.
  eexists. split; [by vm_compute|].
  split; [|by vm_compute].
  apply list_elem_of_In. vm_compute. tauto.
Qed.

(** C1, amended: a run that writes its table writes exactly one row per
    discovered [.json] file, whether or not the file could be read and
    parsed; the row starts with the identifier of its file, and a file that
    fails to read or parse is recorded in the error log and gets the row
    of a record without any field. *)
Theorem C1_one_row_per_discovered_file env config w w' :
  fair env →
  run env config w = (Ok tt, w') →
  ∃ labels lines,
    Forall2 (λ json_file label,
               Label.file_name label = identifier json_file
               ∧ ∀ e, load_outcome (disk w !! json_file) = Raise e →
                      label = initial_label json_file
                      ∧ task_log json_file e ∈ errors w')
            (as_completed env (get_all_files_in_directory env config))
            labels
    ∧ Forall2 (λ label ln, line config label = Ok ln)
              (sort_by_key Label.file_name labels) lines
    ∧ length lines = length (get_all_files_in_directory env config)
    ∧ report w' = Some (header_line config +:+ unlines lines).
Proof.
  intros Hfair Hrun.
  destruct (run_eq env config w Hfair)
    as (w1 & He & _ & _ & w2 & He2 & _ & Hrun').
  rewrite Hrun in Hrun'.
  destruct (writable env (Config.output_path config)); [|done].
  unfold run_labels in Hrun'.
  set (files := as_completed env (get_all_files_in_directory env config))
    in *.
  set (labels := map (λ f, task_label env config f (disk w !! f)) files)
    in *.
  destruct (rows_text _ _ _) as [r txt] eqn:Hrows.
  injection Hrun' as <- ->.
  apply rows_text_Ok in Hrows as (lines & Hlines & ->).
  exists labels, lines. split; [|split; [done|split; [|done]]].
  - apply Forall2_fmap_r, Forall_Forall2_diag, Forall_forall.
    intros f Hf. split; [apply task_label_file_name|].
    intros e Hload.
    destruct (task_label_load_failed env config f _ e Hload) as [Hl Herr].
    split; [done|]. cbn [errors set_report]. rewrite He2, He.
    apply elem_of_app; right. apply list_elem_of_In, in_concat.
    exists [task_log f e]. split; [|by left].
    apply in_map_iff. exists f. split; [done|]. by apply list_elem_of_In.
  - rewrite <-(Forall2_length _ _ _ Hlines).
    rewrite (Permutation_length (sort_by_key_Permutation _ _)).
    subst labels files. by rewrite length_map, (Hfair _).
Qed.

Lemma C1_witness :
  let env := Sample.env Sample.scenario_files in
  ∃ labels lines,
    Forall2 (λ json_file label,
               Label.file_name label = identifier json_file
               ∧ ∀ e, load_outcome (disk Sample.scenario !! json_file)
                      = Raise e →
                      label = initial_label json_file
                      ∧ task_log json_file e
                        ∈ errors (run env Sample.size_md5 Sample.scenario).2)
            (as_completed env
               (get_all_files_in_directory env Sample.size_md5))
            labels
    ∧ Forall2 (λ label ln, line Sample.size_md5 label = Ok ln)
              (sort_by_key Label.file_name labels) lines
    ∧ length lines
      = length (get_all_files_in_directory env Sample.size_md5)
    ∧ report (run env Sample.size_md5 Sample.scenario).2
      = Some (header_line Sample.size_md5 +:+ unlines lines).
Proof.
  apply (C1_one_row_per_discovered_file
           (Sample.env Sample.scenario_files) Sample.size_md5
           Sample.scenario).
  - intros l. reflexivity.
  - vm_compute. reflexivity.
Defined.

(** ** What ends a run *)

(** The claim C7 as it is stated fails on a report whose first_seen is a
    number: the directory exists, every task returns, and the run is
    ended all the same by the [TypeError] that joining the row raises,
    which nothing catches. *)
Lemma C7_counterexample :
  let w := Sample.world_with
             [("d/a.json",
               Sample.report_of [("first_seen", VInt 1500000000)])] in
  let env := Sample.env ["a.json"] in
  isdir env "d" = true
  ∧ (process_json env Sample.only_first_seen "d/a.json" w).1
    = Ok (set_field ColFirstSeen (VInt 1500000000) (Sample.empty_label "a"))
  ∧ (main env "d" false false true false false w).1
    = Raise (TypeError "sequence item: expected str instance").
Proof. by vm_compute. Qed.

(** C7, amended: a configuration error (the input path is not a
    directory) ends the process at once with exit status 1 and a printed
    message, before anything is read, logged or written; no failure inside
    a per-file task ends the process, since every task returns its tuple;
    and once the configuration is accepted a run can only be ended by a
    failure outside the tasks: the error log or the output table cannot be
    opened, or a row of the table cannot be written. *)
Theorem C7_fatal_conditions env input_folder family cpu first_seen size md5 w :
  fair env →
  let config := Config.init input_folder family cpu first_seen size md5 in
  (isdir env input_folder = false →
   main env input_folder family cpu first_seen size md5 w
   = (Raise (SystemExit 1),
      add_line "Error: Input path must be a directory." w))
  ∧ (∀ json_file w0, ∃ label w1,
       process_json env config json_file w0 = (Ok label, w1))
  ∧ (isdir env input_folder = true →
     ∀ e w',
       main env input_folder family cpu first_seen size md5 w
       = (Raise e, w') →
       writable env (Config.log_path config) = false
       ∨ writable env (Config.output_path config) = false
       ∨ ∃ label,
           label ∈ run_labels env config
                     (get_all_files_in_directory env config) (disk w)
           ∧ line config label = Raise e).
Proof.
  intros Hfair config. split; [|split].
  - intros Hdir. unfold main, bind at 1, init. fold config.
    change (Config.input_dir config) with input_folder. by rewrite Hdir.
  - intros json_file w0. eexists _, _. apply process_json_eq.
  - intros Hdir e w'. unfold main, bind at 1, init, setup_logger.
    fold config. change (Config.input_dir config) with input_folder.
    rewrite Hdir.
    destruct (writable env (Config.log_path config)); [|by left].
    unfold ret. cbv beta iota. intros Hmain. right.
    destruct (run_eq env config w Hfair)
      as (w1 & _ & _ & _ & w2 & _ & _ & Hrun).
    rewrite Hrun in Hmain.
    destruct (writable env (Config.output_path config)); [|by left].
    right. destruct (rows_text _ _ _) as [r txt] eqn:Hrows.
    injection Hmain as -> _. by eapply rows_text_Raise.
Qed.

Lemma C7_witness :
  let env := Sample.env Sample.scenario_files in
  main env "elsewhere" false false false true true Sample.scenario
  = (Raise (SystemExit 1),
     add_line "Error: Input path must be a directory." Sample.scenario).
Proof.
  apply (C7_fatal_conditions (Sample.env Sample.scenario_files)
           "elsewhere" false false false true true Sample.scenario).
  - intros l. reflexivity.
  - reflexivity.
Defined.

(** ** Two runs on the same directory *)

Lemma NoDup_fmap_eq {A B} (f : A → B) (l : list A) x y :
  NoDup (map f l) → x ∈ l → y ∈ l → f x = f y → x = y.
Proof.
  induction l as [|a l IH]; [by intros _ ?%elem_of_nil|].
  cbn [map]. intros [Ha Hl]%NoDup_cons Hx Hy Hxy.
  apply elem_of_cons in Hx as [->|Hx]; apply elem_of_cons in Hy as [->|Hy].
  - done.
  - destruct Ha. rewrite Hxy. by apply (list_elem_of_fmap_2 f).
  - destruct Ha. rewrite <-Hxy. by apply (list_elem_of_fmap_2 f).
  - by apply IH.
Qed.

(** The sorted labels of a run do not depend on the completion order when
    the identifiers of the discovered files are distinct, and are the same
    on two disks that hold the same reports. *)
Lemma run_labels_order_irrelevant env order1 order2 config files d1 d2 :
  order1 files ≡ₚ files → order2 files ≡ₚ files →
  (∀ f, f ∈ files → d1 !! f = d2 !! f) →
  NoDup (map identifier files) →
  run_labels (reschedule env order1) config files d1
  = run_labels (reschedule env order2) config files d2.
Proof.
  intros Ho1 Ho2 Hd Hids. unfold run_labels. cbn [as_completed reschedule].
  change (task_label (reschedule env order1)) with (task_label env).
  change (task_label (reschedule env order2)) with (task_label env).
  rewrite (map_ext_in (λ f, task_label env config f (d2 !! f))
                      (λ f, task_label env config f (d1 !! f)) (order2 files)).
  2:{ intros f Hf%list_elem_of_In. rewrite Ho2 in Hf. by rewrite Hd. }
  apply sort_by_key_order_irrelevant.
  { apply fmap_Permutation. by rewrite Ho1, Ho2. }
  intros x y (f & -> & Hf)%list_elem_of_fmap (f' & -> & Hf')%list_elem_of_fmap.
  rewrite !task_label_file_name. intros Hid.
  rewrite Ho1 in Hf, Hf'.
  by rewrite (NoDup_fmap_eq identifier files f f' Hids Hf Hf' Hid).
Qed.

(** The claim C8 as it is stated fails when two discovered files share an
    identifier: on the same directory and configuration, two runs whose
    tasks complete in different orders write different tables. *)
Lemma C8_counterexample :
  let w := Sample.world_with
             [("d/p/x.json", Sample.report_of [("size", VInt 1)]);
              ("d/q/x.json", Sample.report_of [("size", VInt 2)])] in
  let first := reschedule Sample.two_directories (λ l, l) in
  let second := reschedule Sample.two_directories (λ l, rev l) in
  fair first ∧ fair second
  ∧ lines_of <$> report (run first Sample.only_size w).2
    = Some ["file_name,size"; "x,1"; "x,2"]
  ∧ lines_of <$> report (run second Sample.only_size w).2
    = Some ["file_name,size"; "x,2"; "x,1"].
Proof.
  split; [by intros l|]. split; [|by vm_compute].
  intros l. cbn [as_completed reschedule]. symmetry. apply Permutation_rev.
Qed.

(** C8, amended: on two disks that hold the same reports, with the same
    configuration, surroundings and classifier answers, two runs end the
    same way and write byte-identical tables whatever the order in which
    their tasks complete, provided the discovered files have distinct
    identifiers. *)
Theorem C8_same_directory_same_table env order1 order2 config w1 w2 :
  fair (reschedule env order1) →
  fair (reschedule env order2) →
  (∀ p, endswith p ".json" = true → disk w1 !! p = disk w2 !! p) →
  NoDup (map identifier (get_all_files_in_directory env config)) →
  (run (reschedule env order1) config w1).1
  = (run (reschedule env order2) config w2).1
  ∧ (writable env (Config.output_path config) = true →
     report (run (reschedule env order1) config w1).2
     = report (run (reschedule env order2) config w2).2).
Proof.
  intros Ho1 Ho2 Hd Hids.
  destruct (run_eq (reschedule env order1) config w1 Ho1)
    as (u1 & _ & _ & _ & u2 & _ & _ & ->).
  destruct (run_eq (reschedule env order2) config w2 Ho2)
    as (v1 & _ & _ & _ & v2 & _ & _ & ->).
  cbn [writable reschedule].
  change (get_all_files_in_directory (reschedule env ?o) config)
    with (get_all_files_in_directory env config).
  rewrite (run_labels_order_irrelevant env order1 order2 config
             (get_all_files_in_directory env config) (disk w1) (disk w2)).
  - destruct (writable env (Config.output_path config)); [|done].
    by destruct (rows_text _ _ _).
  - apply (Ho1 _).
  - apply (Ho2 _).
  - intros f Hf. apply Hd.
    pose proof (get_all_files_json env config) as Hjson.
    rewrite Forall_forall in Hjson. by apply Hjson.
  - done.
Qed.

Lemma C8_witness :
  let env := Sample.env Sample.scenario_files in
  report (run (reschedule env (λ l, l)) Sample.size_md5 Sample.scenario).2
  = report (run (reschedule env (λ l, rev l)) Sample.size_md5
              Sample.scenario).2.
Proof.
  apply (C8_same_directory_same_table (Sample.env Sample.scenario_files)
           (λ l, l) (λ l, rev l) Sample.size_md5
           Sample.scenario Sample.scenario).
  - intros l. reflexivity.
  - intros l. cbn [as_completed reschedule]. symmetry. apply Permutation_rev.
  - reflexivity.
  - vm_compute. repeat constructor; intros H; inversion H; subst;
      repeat match goal with
             | H : _ ∈ _ |- _ => inversion H; clear H; subst
             end.
  - reflexivity.
Defined.

(** * Further properties of the script *)

(** ** Strings and paths *)

Lemma string_app_length a b :
  String.length (a +:+ b) = (String.length a + String.length b)%nat.
Proof.
  induction a as [|c a IH]; [done|].
  change (String c a +:+ b) with (String c (a +:+ b)). simpl. by rewrite IH.
Qed.

Lemma substring_app_prefix a b :
  String.substring 0 (String.length a) (a +:+ b) = a.
Proof.
  induction a as [|c a IH]; simpl.
  - by destruct b.
  - change (String c a +:+ b) with (String c (a +:+ b)). simpl.
    by rewrite IH.
Qed.

Lemma drop_last_app a b : drop_last (String.length b) (a +:+ b) = a.
Proof.
  unfold drop_last. rewrite string_app_length.
  replace (String.length a + String.length b - String.length b)%nat
    with (String.length a) by lia.
  apply substring_app_prefix.
Qed.

Lemma endswith_iff s suffix :
  endswith s suffix = true ↔ ∃ p, s = p +:+ suffix.
Proof.
  split.
  - induction s as [|c s IH]; cbn [endswith].
    + rewrite orb_false_r. intros ->%String.eqb_eq. by exists "".
    + intros [->%String.eqb_eq|(p & ->)%IH]%orb_true_iff; [by exists ""|].
      by exists (String c p).
  - intros (p & ->). apply endswith_app.
    destruct suffix; cbn [endswith]; by rewrite String.eqb_refl.
Qed.

Lemma rsplit_no_slash b :
  contains_char "/" b = false → OsPath.rsplit b = ("", b).
Proof.
  induction b as [|c b IH]; [done|]. cbn [contains_char OsPath.rsplit].
  intros [Hc Hb]%orb_false_iff. rewrite (IH Hb). by rewrite Ascii.eqb_sym, Hc.
Qed.

Lemma rsplit_app a b :
  contains_char "/" b = false →
  OsPath.rsplit (a +:+ "/" +:+ b) = (a +:+ "/", b).
Proof.
  intros Hb. induction a as [|c a IH].
  - change ("" +:+ "/" +:+ b) with (String "/" b). cbn [OsPath.rsplit].
    by rewrite (rsplit_no_slash b Hb).
  - change (String c a +:+ "/" +:+ b) with (String c (a +:+ "/" +:+ b)).
    cbn [OsPath.rsplit]. rewrite IH.
    change (String c a +:+ "/") with (String c (a +:+ "/")).
    by destruct (a +:+ "/") eqn:Ha; [destruct a|].
Qed.

Lemma prefix_slash_no_slash file :
  contains_char "/" file = false → String.prefix "/" file = false.
Proof.
  destruct file as [|c file]; [done|]. cbn [contains_char String.prefix].
  intros [Hc _]%orb_false_iff.
  destruct (ascii_dec "/" c) as [<-|?]; [|done].
  by rewrite Ascii.eqb_refl in Hc.
Qed.

Lemma basename_join root file :
  contains_char "/" file = false →
  OsPath.basename (OsPath.join root file) = file.
Proof.
  intros Hfile. unfold OsPath.join, OsPath.basename.
  rewrite (prefix_slash_no_slash file Hfile).
  destruct (String.eqb root "") eqn:Hroot.
  { apply String.eqb_eq in Hroot as ->. cbn [orb].
    change ("" +:+ file) with file. by rewrite rsplit_no_slash. }
  destruct (endswith root "/") eqn:Hslash; cbn [orb].
  - apply endswith_iff in Hslash as (p & ->).
    rewrite string_app_assoc. by rewrite rsplit_app.
  - by rewrite rsplit_app.
Qed.

Lemma contains_char_app c a b :
  contains_char c (a +:+ b) = contains_char c a || contains_char c b.
Proof.
  induction a as [|x a IH]; [done|].
  change (String x a +:+ b) with (String x (a +:+ b)).
  cbn [contains_char]. by rewrite IH, orb_assoc.
Qed.

Lemma last_char_join a b :
  b ≠ "" → last_char (OsPath.join a b) = last_char b.
Proof.
  intros Hb. unfold OsPath.join.
  destruct (String.prefix "/" b); [done|].
  destruct (_ || _); rewrite !last_char_app; by try destruct b.
Qed.

Lemma last_char_not_endswith s c suffix c' :
  last_char s = Some c → last_char suffix = Some c' → c ≠ c' →
  endswith s suffix = false.
Proof.
  intros Hs Hsuffix Hne. destruct (endswith s suffix) eqn:Hend; [|done].
  rewrite (endswith_last_char _ _ c' Hend Hsuffix) in Hs. congruence.
Qed.

Lemma all_slashes_app_false s c t :
  last_char s = Some c → c ≠ "/"%char → OsPath.all_slashes (s +:+ t) = false.
Proof.
  intros Hs Hc. induction s as [|x s IH]; [done|].
  change (String x s +:+ t) with (String x (s +:+ t)).
  cbn [OsPath.all_slashes]. destruct s as [|y s].
  - injection Hs as ->.
    destruct (Ascii.eqb_spec c "/"); [done|]. done.
  - rewrite IH by done. apply andb_false_r.
Qed.

Lemma rstrip_slashes_app_slash d c :
  last_char d = Some c → c ≠ "/"%char →
  OsPath.rstrip_slashes (d +:+ "/") = d.
Proof.
  intros Hd Hc. induction d as [|x d IH]; [done|].
  change (String x d +:+ "/") with (String x (d +:+ "/")).
  cbn [OsPath.rstrip_slashes]. destruct d as [|y d].
  - injection Hd as ->. simpl.
    destruct (Ascii.eqb_spec c "/"); [done|]. done.
  - by rewrite IH.
Qed.

Lemma dirname_app d c name :
  last_char d = Some c → c ≠ "/"%char → contains_char "/" name = false →
  OsPath.dirname (d +:+ "/" +:+ name) = d
  ∧ OsPath.basename (d +:+ "/" +:+ name) = name.
Proof.
  intros Hd Hc Hname. unfold OsPath.dirname, OsPath.basename.
  rewrite rsplit_app by done. cbn [fst snd].
  by rewrite (all_slashes_app_false d c), (rstrip_slashes_app_slash d c).
Qed.

Lemma join_plain d c file :
  last_char d = Some c → c ≠ "/"%char → contains_char "/" file = false →
  OsPath.join d file = d +:+ "/" +:+ file.
Proof.
  intros Hd Hc Hfile. unfold OsPath.join.
  rewrite (prefix_slash_no_slash file Hfile).
  rewrite (last_char_not_endswith d c "/" "/") by done.
  by destruct d.
Qed.

(** ** Where the table and the log go *)

(** X1: for an input directory [d/name] given without a trailing slash the
    table and the log are written beside it, as [d/name_report_info.csv]
    and [d/name_error.log]; with [name] empty this reads: for an input
    [d/] given with a trailing slash they are written inside the
    directory, as [d/_report_info.csv] and [d/_error.log].  A bare
    directory name gives files in the current directory. *)
Theorem X1_table_and_log_paths d c name family cpu first_seen size md5 :
  last_char d = Some c → c ≠ "/"%char → contains_char "/" name = false →
  let beside := Config.init (d +:+ "/" +:+ name) family cpu first_seen
                            size md5 in
  let bare := Config.init name family cpu first_seen size md5 in
  Config.output_path beside = (d +:+ "/" +:+ name +:+ "_report_info.csv")
  ∧ Config.log_path beside = (d +:+ "/" +:+ name +:+ "_error.log")
  ∧ Config.output_path bare = (name +:+ "_report_info.csv")
  ∧ Config.log_path bare = (name +:+ "_error.log").
Proof.
  intros Hd Hc Hname. cbn [Config.init Config.output_path Config.log_path].
  destruct (dirname_app d c name Hd Hc Hname) as [-> ->].
  rewrite !(join_plain d c) by (by rewrite ?contains_char_app, ?Hname).
  unfold OsPath.dirname, OsPath.basename.
  rewrite (rsplit_no_slash name Hname). cbn [fst snd OsPath.all_slashes].
  unfold OsPath.join.
  rewrite !prefix_slash_no_slash by (by rewrite contains_char_app, Hname).
  done.
Qed.

Lemma X1_witness :
  Config.output_path (Config.init "/data/reports/" true false false true true)
  = "/data/reports/_report_info.csv".
Proof.
  apply (X1_table_and_log_paths "/data/reports" "s" "" true false false
           true true); [reflexivity|discriminate|reflexivity].
Defined.

(** X2: the table and the log never end in [.json] and are never the
    temporary artifact of a file, so a run never takes its own outputs for
    reports, and no task overwrites or removes them. *)
Theorem X2_outputs_are_not_inputs env config input_dir family cpu first_seen
    size md5 json_file :
  let own := Config.init input_dir family cpu first_seen size md5 in
  (Config.output_path own ∉ get_all_files_in_directory env config)
  ∧ (Config.log_path own ∉ get_all_files_in_directory env config)
  ∧ Config.output_path own ≠ tmp_of json_file
  ∧ Config.log_path own ≠ tmp_of json_file.
Proof.
  intros own.
  assert (last_char (Config.output_path own) = Some "v"%char) as Hout.
  { cbn [own Config.init Config.output_path].
    rewrite last_char_join, last_char_app; try done.
    by destruct (OsPath.basename input_dir). }
  assert (last_char (Config.log_path own) = Some "g"%char) as Hlog.
  { cbn [own Config.init Config.log_path].
    rewrite last_char_join, last_char_app; try done.
    by destruct (OsPath.basename input_dir). }
  pose proof (get_all_files_json env config) as Hjson.
  rewrite Forall_forall in Hjson.
  assert (last_char (tmp_of json_file) = Some "p"%char) as Htmp.
  { unfold tmp_of. by rewrite last_char_app. }
  repeat split.
  - intros Hin%Hjson. apply (endswith_last_char _ _ "n") in Hin; [|done].
    congruence.
  - intros Hin%Hjson. apply (endswith_last_char _ _ "n") in Hin; [|done].
    congruence.
  - intros Heq. rewrite Heq in Hout. congruence.
  - intros Heq. rewrite Heq in Hlog. congruence.
Qed.

(** ** Discovery and identifiers *)

(** X3: the discovered paths are exactly the joins of a walked directory
    with one of its file names that ends in [.json] (the test is on the
    name and is case sensitive); every one of them ends in [.json], and
    they come in the order of the walk, one per matching name. *)
Theorem X3_discovered_reports env config :
  (∀ p, p ∈ get_all_files_in_directory env config ↔
        ∃ root dirs files file,
          (root, dirs, files) ∈ walk env (Config.input_dir config)
          ∧ file ∈ files ∧ endswith file ".json" = true
          ∧ p = OsPath.join root file)
  ∧ Forall (λ p, endswith p ".json" = true)
           (get_all_files_in_directory env config)
  ∧ length (get_all_files_in_directory env config)
    = sum_list (map (λ '(_, _, files),
                       length (List.filter (λ f, endswith f ".json") files))
                    (walk env (Config.input_dir config))).
Proof.
  split; [|split; [apply get_all_files_json|]].
  - intros p. unfold get_all_files_in_directory.
    rewrite list_elem_of_In, in_flat_map. split.
    + intros ([[root dirs] files] & Hw & (file & Hf & Hp)%in_flat_map).
      destruct (endswith file ".json") eqn:Hjson; [|done].
      destruct Hp as [<-|[]]. exists root, dirs, files, file.
      by rewrite !list_elem_of_In.
    + intros (root & dirs & files & file & Hw & Hf & Hjson & ->).
      exists (root, dirs, files). split; [by apply list_elem_of_In|].
      apply in_flat_map. exists file. split; [by apply list_elem_of_In|].
      rewrite Hjson. by left.
  - unfold get_all_files_in_directory.
    induction (walk env (Config.input_dir config)) as [|[[root dirs] files] l IH];
      [done|].
    cbn [flat_map map sum_list sum_list_with]. rewrite length_app, IH.
    f_equal. clear. induction files as [|f files IH]; [done|].
    cbn [flat_map List.filter]. rewrite length_app, IH.
    by destruct (endswith f ".json").
Qed.

(** X4: the identifier of a report [root/name.json] is [name], whatever
    the directory [root]: the directory is dropped, so reports of the same
    name in two directories share their identifier. *)
Theorem X4_identifier_drops_directory root name :
  contains_char "/" name = false →
  identifier (OsPath.join root (name +:+ ".json")) = name.
Proof.
  intros Hname. unfold identifier.
  rewrite basename_join by (by rewrite contains_char_app, Hname).
  apply (drop_last_app name ".json").
Qed.

Lemma X4_witness :
  identifier (OsPath.join "d/p" ("x" +:+ ".json")) = "x"
  ∧ identifier (OsPath.join "d/q/" ("x" +:+ ".json")) = "x".
Proof.
  split; apply X4_identifier_drops_directory; reflexivity.
Defined.

(** ** One task, step by step *)

(** X5: [convert_to_one_line] never raises.  When the file loads it
    returns the one-line text of its document and logs nothing; when the
    file cannot be read or parsed it returns [None] after appending exactly
    one message, which names the file and the cause.  It never changes a
    file. *)
Theorem X5_convert_to_one_line_never_raises json_file w :
  ∃ r w',
    convert_to_one_line json_file w = (Ok r, w')
    ∧ disk w' = disk w ∧ report w' = report w ∧ console w' = console w
    ∧ match (load json_file w).1 with
      | Ok data => r = Some (json_dumps data) ∧ errors w' = errors w
      | Raise (JSONDecodeError msg) =>
          r = None
          ∧ errors w'
            = errors w ++ ["Error decoding JSON file (" +:+ json_file
                             +:+ "): " +:+ msg]
      | Raise e =>
          r = None
          ∧ errors w'
            = errors w ++ ["Error reading JSON file (" +:+ json_file
                             +:+ "): " +:+ exn_str e]
      end.
Proof.
  rewrite convert_to_one_line_eq, load_eq. cbn [fst].
  destruct (load_outcome (disk w !! json_file)) as [data|[]];
    eexists _, _; (split; [reflexivity|]); by destruct w.
Qed.

Lemma classify_log_length json_file p :
  (length (classify_log json_file p) ≤ 1)%nat.
Proof.
  destruct p as [msg|status output]; simpl; [lia|].
  destruct (status =? 0); [|simpl; lia].
  destruct (split output !! 1%nat); simpl; lia.
Qed.


(** X8: without family labeling a task neither runs the classifier nor
    writes or removes any file: what it returns and logs is the same in
    all surroundings, and the disk is left as it was. *)
Theorem X8_no_enrichment_without_family env env' config json_file w :
  Config.family config = false →
  process_json env config json_file w = process_json env' config json_file w
  ∧ disk (process_json env config json_file w).2 = disk w.
Proof.
  intros Hfamily. rewrite !process_json_eq.
  unfold task_label, task_errors, task_disk, attempts_artifact,
    enriched_label.
  rewrite Hfamily. cbn [andb]. rewrite andb_false_r.
  split; [done|]. by destruct w.
Qed.

Lemma X8_witness :
  let w := Sample.world_with
             [("d/a.json", Sample.report_of [("size", VInt 10)])] in
  process_json (Sample.env ["a.json"]) Sample.only_size "d/a.json" w
  = process_json (Sample.read_only ["a.json"]) Sample.only_size "d/a.json" w.
Proof.
  apply (X8_no_enrichment_without_family (Sample.env ["a.json"])
           (Sample.read_only ["a.json"]) Sample.only_size "d/a.json").
  reflexivity.
Defined.

(** ** The classifier's answer *)

Lemma rev_app_nonempty s acc : acc ≠ "" → String.rev_app s acc ≠ "".
Proof.
  revert acc. induction s as [|c s IH]; intros acc Hacc; [done|].
  simpl. by apply IH.
Qed.

Lemma finish_nonempty cur token :
  (∀ c, cur = Some c → c ≠ "") → token ∈ finish cur → token ≠ "".
Proof.
  intros Hcur. destruct cur as [run|]; simpl; [|by intros ?%elem_of_nil].
  intros ->%list_elem_of_singleton. unfold String.rev.
  specialize (Hcur run eq_refl). destruct run; [done|].
  simpl. by apply rev_app_nonempty.
Qed.

(** [split_go] skips up to three bytes at a time: the induction is on a
    bound of the length of what is left to read. *)
Lemma split_go_nonempty_bounded n cur s token :
  (String.length s ≤ n)%nat →
  (∀ c, cur = Some c → c ≠ "") →
  token ∈ split_go cur s → token ≠ "".
Proof.
  revert cur s. induction n as [|n IH]; intros cur s Hlen Hcur.
  { destruct s; [|simpl in Hlen; lia]. by apply finish_nonempty. }
  assert (∀ c run, extend c cur = Some run → run ≠ "") as Hext.
  { by intros c run [= <-]. }
  destruct s as [|c1 s1]; [by apply finish_nonempty|].
  cbn [split_go]. simpl in Hlen.
  destruct (isspace c1).
  { intros [?|?]%elem_of_app; [by eapply finish_nonempty|].
    eapply (IH None s1); [lia|done|done]. }
  destruct s1 as [|c2 s2].
  { apply IH; [simpl; lia|apply Hext]. }
  simpl in Hlen. destruct (isspace2 c1 c2).
  { intros [?|?]%elem_of_app; [by eapply finish_nonempty|].
    eapply (IH None s2); [lia|done|done]. }
  destruct s2 as [|c3 s3].
  { apply IH; [simpl; lia|apply Hext]. }
  simpl in Hlen. destruct (isspace3 c1 c2 c3).
  { intros [?|?]%elem_of_app; [by eapply finish_nonempty|].
    eapply (IH None s3); [lia|done|done]. }
  apply IH; [simpl; lia|apply Hext].
Qed.

Lemma split_go_nonempty cur s token :
  (∀ c, cur = Some c → c ≠ "") →
  token ∈ split_go cur s → token ≠ "".
Proof. by apply (split_go_nonempty_bounded (String.length s)). Qed.

Lemma split_nonempty s token : token ∈ split s → token ≠ "".
Proof. by apply split_go_nonempty. Qed.

(** X9: with family labeling enabled, a report that loads, an artifact
    that can be written and a classifier that exits with status 0 and
    prints at least two tokens, the family of the file is the second
    token; it is never empty, so the family cell of the row is that token
    as it is, and the classifier costs no log message. *)
Theorem X9_family_is_second_token env config json_file w data output token :
  Config.family config = true →
  load_outcome (disk w !! json_file) = Ok data →
  writable env (tmp_of json_file) = true →
  shell env (command json_file) = Exited 0 output →
  split output !! 1%nat = Some token →
  ∃ label w',
    process_json env config json_file w = (Ok label, w')
    ∧ Label.family label = VStr token
    ∧ cell ColFamily label = VStr token
    ∧ errors w'
      = errors w
        ++ result_log json_file
             (fields_outcome config data
                (Label.set_family (VStr token) (initial_label json_file))).1.
Proof.
  intros Hfamily Hload Hwritable Hshell Htoken.
  eexists _, _. split; [apply process_json_eq|].
  assert (task_label env config json_file (disk w !! json_file)
          = (fields_outcome config data
               (Label.set_family (VStr token) (initial_label json_file))).2)
    as Hlabel.
  { unfold task_label, enriched_label.
    rewrite Hload, Hfamily, Hwritable, Hshell. cbn [andb negb family_token].
    change (0 =? 0) with true. cbv iota. by rewrite Htoken. }
  assert (Label.family (task_label env config json_file (disk w !! json_file))
          = VStr token) as Hfam.
  { rewrite Hlabel.
    change (Label.family ?l) with (field_value ColFamily l).
    by rewrite fields_outcome_keeps by auto. }
  split; [done|]. split.
  - apply cell_string; [done|].
    apply (split_nonempty output), list_elem_of_lookup. eauto.
  - unfold task_errors, enriched_label.
    rewrite Hload, Hfamily, Hwritable, Hshell.
    cbn [classify_log family_token]. change (0 =? 0) with true. cbv iota.
    rewrite Htoken. cbn [with_family app]. by destruct w.
Qed.

Lemma X9_witness :
  let w := Sample.world_with
             [("d/a.json", Sample.report_of [("size", VInt 10)])] in
  ∃ label w',
    process_json (Sample.env ["a.json"]) Sample.family_size "d/a.json" w
    = (Ok label, w')
    ∧ Label.family label = VStr "family"
    ∧ cell ColFamily label = VStr "family"
    ∧ errors w'
      = errors w
        ++ result_log "d/a.json"
             (fields_outcome Sample.family_size (VDict [("size", VInt 10)])
                (Label.set_family (VStr "family")
                   (initial_label "d/a.json"))).1.
Proof.
  apply (X9_family_is_second_token (Sample.env ["a.json"])
           Sample.family_size "d/a.json" _ (VDict [("size", VInt 10)])
           "0f3a family" "family"); reflexivity.
Defined.





(** ** Rows that can and cannot be written *)

Lemma all_strs_is_Some l :
  is_Some (all_strs l) ↔ Forall (λ v, ∃ s, v = VStr s) l.
Proof.
  induction l as [|v l IH]; simpl.
  { split; [constructor|by eexists]. }
  rewrite Forall_cons, <-IH. destruct v;
    try (split; [by intros [? ?]|by intros [[? ?] _]]).
  rewrite fmap_is_Some. split; [|by intros [_ ?]]. intros ?. split; [|done].
  by eexists.
Qed.

Lemma cell_is_string c label :
  (∃ s, cell c label = VStr s) ↔
  (c ≠ ColFileName → c ≠ ColSize → truthy (field_value c label) = true →
   ∃ s, field_value c label = VStr s).
Proof.
  assert (∀ v, (∃ s, py_or v (VStr "") = VStr s)
               ↔ (truthy v = true → ∃ s, v = VStr s)) as Hor.
  { intros v. unfold py_or. destruct (truthy v).
    - split; [by intros ? _|by intros H; apply H].
    - split; [done|intros _; by eexists]. }
  destruct c; cbn [cell field_value].
  - split; [done|intros _; by eexists].
  - rewrite Hor. split; [by intros H _ _|by intros H; apply H].
  - rewrite Hor. split; [by intros H _ _|by intros H; apply H].
  - rewrite Hor. split; [by intros H _ _|by intros H; apply H].
  - split; [done|intros _; destruct (is_not_None _); by eexists].
  - rewrite Hor. split; [by intros H _ _|by intros H; apply H].
Qed.

(** X11: the line of a row can be written exactly when every requested
    field other than the size is falsy or a string; any other value there
    (a non-zero number, [True], a non-empty list or object) makes the join
    raise.  The size never prevents the row from being written. *)
Theorem X11_row_can_be_written config label :
  is_Ok (line config label) = true ↔
  ∀ c, requested config c = true → c ≠ ColFileName → c ≠ ColSize →
       truthy (field_value c label) = true →
       ∃ s, field_value c label = VStr s.
Proof.
  unfold line, join.
  assert (is_Ok match all_strs (row config label) with
                | Some l => Ok (join_strs "," l)
                | None => Raise (TypeError "sequence item: expected str instance")
                end = true
          ↔ is_Some (all_strs (row config label))) as ->.
  { destruct (all_strs _); simpl; split; by (done || eexists || intros []). }
  rewrite all_strs_is_Some, row_columns, Forall_fmap, Forall_forall.
  split.
  - intros H c Hc. apply cell_is_string, H. by apply active_columns_requested.
  - intros H c Hc%active_columns_requested. simpl.
    apply cell_is_string. by apply H.
Qed.

Lemma count_char_none c s : contains_char c s = false → count_char c s = 0%nat.
Proof.
  induction s as [|c' s IH]; [done|]. cbn [contains_char count_char].
  intros [-> Hs]%orb_false_iff. by rewrite IH.
Qed.

Lemma join_strs_plain_cells strs :
  strs ≠ [] →
  Forall (λ s, contains_char "," s = false) strs →
  comma_cells (join_strs "," strs) = length strs.
Proof.
  unfold comma_cells. intros Hne Hall.
  induction Hall as [|s strs Hs Hall IH]; [done|].
  destruct strs as [|s' strs].
  { simpl. by rewrite count_char_none. }
  rewrite join_strs_cons by done. rewrite !count_char_app, count_char_none by done.
  change (count_char "," ",") with 1%nat. specialize (IH ltac:(done)).
  simpl length in *. lia.
Qed.

(** X12: when no cell of a row holds a comma, the line written for it
    has exactly as many comma-separated cells as the header has columns. *)
Theorem X12_plain_row_matches_header config label ln :
  (∀ c s, requested config c = true → cell c label = VStr s →
          contains_char "," s = false) →
  line config label = Ok ln →
  comma_cells ln = length (header config).
Proof.
  intros Hplain Hline. unfold line, join in Hline.
  destruct (all_strs (row config label)) as [strs|] eqn:Hstrs; [|done].
  injection Hline as <-. apply all_strs_Some in Hstrs.
  rewrite <-(row_length config label), Hstrs, length_map.
  apply join_strs_plain_cells.
  - intros ->. by rewrite row_columns in Hstrs.
  - apply Forall_forall. intros s Hs.
    assert (VStr s ∈ row config label) as Hin.
    { rewrite Hstrs. by apply list_elem_of_fmap_2. }
    rewrite row_columns in Hin.
    apply list_elem_of_fmap in Hin as (c & Hc & Hreq%active_columns_requested).
    by apply (Hplain c).
Qed.

Lemma X12_witness :
  comma_cells "a,10,aa" = length (header Sample.size_md5).
Proof.
  apply (X12_plain_row_matches_header Sample.size_md5
           (Label.mk "a" VNone VNone VNone (VInt 10) (VStr "aa"))).
  - intros [] s Hreq [= <-]; try discriminate Hreq; reflexivity.
  - reflexivity.
Defined.

(** X13: results that share a file identifier are written in the order in
    which they were collected: the sort by identifier is stable. *)
Theorem X13_equal_identifiers_keep_collection_order
    (labels : list Label.t) (name : string) :
  filter (λ label, Label.file_name label = name)
         (sort_by_key Label.file_name labels)
  = filter (λ label, Label.file_name label = name) labels.
Proof. apply sort_by_key_stable. Qed.

(** ** A whole run *)

Section whole_run.
Context (env : Env) (config : Config.t).

Lemma task_errors_length json_file o :
  (length (task_errors env config json_file o) ≤ 2)%nat.
Proof.
  unfold task_errors.
  destruct (load_outcome o) as [data|e]; [|simpl; lia].
  destruct (Config.family config); [destruct (writable env _)|].
  - rewrite length_app.
    pose proof (classify_log_length json_file (shell env (command json_file))).
    destruct (fields_outcome _ _ _).1; simpl; lia.
  - simpl. lia.
  - destruct (fields_outcome _ _ _).1; simpl; lia.
Qed.

(** Every task returns; together the tasks only append to the log, and
    without family labeling they leave the disk as it is. *)
Lemma run_tasks_general tasks w :
  ∃ labels w' msgs,
    run_tasks env config tasks w = (map Ok labels, w')
    ∧ length labels = length tasks
    ∧ (Config.family config = false → disk w' = disk w)
    ∧ errors w' = errors w ++ msgs
    ∧ (length msgs ≤ 2 * length tasks)%nat
    ∧ report w' = report w
    ∧ console w' = console w.
Proof.
  revert w. induction tasks as [|f tasks IH]; intros w.
  { exists [], w, []. simpl. by rewrite app_nil_r. }
  cbn [run_tasks]. rewrite process_json_eq.
  set (w1 := add_errors _ _).
  destruct (IH w1) as (labels & w' & msgs & -> & Hlen & Hd & He & Hm & Hr & Hc).
  exists (task_label env config f (disk w !! f) :: labels), w',
    (task_errors env config f (disk w !! f) ++ msgs).
  split; [done|]. split; [by simpl; rewrite Hlen|].
  split; [|split; [|split; [|split]]].
  - intros Hfamily. rewrite (Hd Hfamily). subst w1. destruct w.
    unfold task_disk, attempts_artifact. simpl.
    by rewrite Hfamily, andb_false_r.
  - rewrite He. subst w1. destruct w. simpl. by rewrite app_assoc.
  - rewrite length_app.
    pose proof (task_errors_length f (disk w !! f)). simpl. lia.
  - rewrite Hr. subst w1. by destruct w.
  - rewrite Hc. subst w1. by destruct w.
Qed.

(** [label_files] in all surroundings: the tasks run, then the table is
    opened and written row by row, and the elapsed time is printed. *)
Lemma label_files_general file_list w :
  ∃ labels w1 msgs,
    length labels = length (as_completed env file_list)
    ∧ (Config.family config = false → disk w1 = disk w)
    ∧ errors w1 = errors w ++ msgs
    ∧ (length msgs ≤ 2 * length (as_completed env file_list))%nat
    ∧ report w1 = report w
    ∧ console w1 = console w
    ∧ label_files env config file_list w
      = if writable env (Config.output_path config) then
          match rows_text config (sort_by_key Label.file_name labels)
                  (header_line config) with
          | (Ok _, txt) =>
              (Ok tt, add_line (time_line env) (set_report (λ _, Some txt) w1))
          | (Raise e, txt) => (Raise e, set_report (λ _, Some txt) w1)
          end
        else (Raise (OSError "Permission denied"), w1).
Proof.
  destruct (run_tasks_general (as_completed env file_list) w)
    as (labels & w1 & msgs & Hrun & Hlen & Hd & He & Hm & Hr & Hc).
  exists labels, w1, msgs. repeat (split; [done|]).
  unfold label_files, bind at 1. rewrite Hrun.
  unfold bind at 1, lift_result at 1. rewrite collect_Ok, app_nil_l.
  unfold bind at 1, open_report.
  destruct (writable env (Config.output_path config)); [|done].
  unfold modify at 1, bind at 1, write_report at 1, modify at 1.
  unfold bind at 1.
  rewrite (write_rows_eq config _ _ (header_line config)).
  - destruct (rows_text _ _ _) as [[[]|e] txt]; by destruct w1.
  - by destruct w1.
Qed.

Lemma rows_text_raises labels acc e txt :
  rows_text config labels acc = (Raise e, txt) →
  e = TypeError "sequence item: expected str instance".
Proof.
  intros (label & _ & Hline)%rows_text_Raise. unfold line, join in Hline.
  destruct (all_strs _); by simplify_eq.
Qed.

(** The rows that are written are those before the first one that cannot
    be joined. *)
Lemma rows_text_prefix labels acc r txt :
  rows_text config labels acc = (r, txt) →
  ∃ n lines,
    Forall2 (λ label ln, line config label = Ok ln) (take n labels) lines
    ∧ txt = acc +:+ unlines lines
    ∧ match r with
      | Ok _ => n = length labels
      | Raise e =>
          ∃ label, labels !! n = Some label ∧ line config label = Raise e
      end.
Proof.
  revert acc. induction labels as [|label labels IH]; intros acc; simpl.
  { intros [= <- <-]. exists 0%nat, []. split; [constructor|].
    simpl. by rewrite string_app_nil_r. }
  destruct (line config label) as [ln|e] eqn:Hline.
  - intros (n & lines & Hlines & -> & Hr)%IH. exists (S n), (ln :: lines).
    split; [by constructor|]. split.
    { simpl. by rewrite !string_app_assoc. }
    destruct r; [by rewrite Hr|done].
  - intros [= <- <-]. exists 0%nat, []. split; [constructor|].
    split; [simpl; by rewrite string_app_nil_r|]. by exists label.
Qed.
End whole_run.

Section run_and_main.
Context (env : Env).

(** [run] in all surroundings. *)
Lemma run_general config w :
  ∃ labels w1 msgs,
    length labels
    = length (as_completed env (get_all_files_in_directory env config))
    ∧ (Config.family config = false → disk w1 = disk w)
    ∧ errors w1 = errors w ++ msgs
    ∧ (length msgs
       ≤ 2 * length (as_completed env
                       (get_all_files_in_directory env config)))%nat
    ∧ report w1 = report w
    ∧ console w1 = console w
    ∧ run env config w
      = if writable env (Config.output_path config) then
          match rows_text config (sort_by_key Label.file_name labels)
                  (header_line config) with
          | (Ok _, txt) =>
              (Ok tt,
               World (disk w1) (errors w1) (Some txt)
                     (console w1 ++ time_line env :: summary_lines env config))
          | (Raise e, txt) =>
              (Raise e, set_report (λ _, Some txt) w1)
          end
        else (Raise (OSError "Permission denied"), w1).
Proof.
  destruct (label_files_general env config
              (get_all_files_in_directory env config) w)
    as (labels & w1 & msgs & Hlen & Hd & He & Hm & Hr & Hc & Hlabel).
  exists labels, w1, msgs. repeat (split; [done|]).
  unfold run. cbv zeta. unfold bind at 1. rewrite Hlabel.
  destruct (writable env (Config.output_path config)); [|done].
  destruct (rows_text _ _ _) as [[[]|e] txt]; [|done].
  unfold bind, print, modify, add_line, set_report, summary_lines.
  simpl. by rewrite <-!app_assoc.
Qed.

(** [main] in all surroundings. *)
Lemma main_general input_folder family cpu first_seen size md5 w :
  let config := Config.init input_folder family cpu first_seen size md5 in
  main env input_folder family cpu first_seen size md5 w
  = if isdir env input_folder then
      if writable env (Config.log_path config)
      then run env config w
      else (Raise (OSError "Permission denied"), w)
    else (Raise (SystemExit 1),
          add_line "Error: Input path must be a directory." w).
Proof.
  unfold main, bind at 1, init, setup_logger. cbv zeta.
  change (Config.input_dir (Config.init input_folder _ _ _ _ _))
    with input_folder.
  destruct (isdir env input_folder); [|done].
  by destruct (writable env (Config.log_path _)).
Qed.
End run_and_main.

(** X14: when the output table can be opened it is written from scratch,
    whatever it held before: it holds the header line followed by the
    lines of the sorted results, all of them when the run succeeds, and
    those before the first row that cannot be joined when the run is ended
    by that row. *)
Theorem X14_table_is_rewritten env config w :
  fair env →
  writable env (Config.output_path config) = true →
  let labels :=
    run_labels env config (get_all_files_in_directory env config) (disk w) in
  ∃ n lines,
    Forall2 (λ label ln, line config label = Ok ln) (take n labels) lines
    ∧ report (run env config w).2
      = Some (header_line config +:+ unlines lines)
    ∧ match (run env config w).1 with
      | Ok _ => n = length labels
      | Raise e =>
          ∃ label, labels !! n = Some label ∧ line config label = Raise e
      end.
Proof.
  intros Hfair Hwritable labels.
  destruct (run_eq env config w Hfair)
    as (w1 & _ & _ & _ & w2 & _ & _ & ->).
  rewrite Hwritable. fold labels.
  destruct (rows_text config labels (header_line config)) as [r txt] eqn:Hrows.
  apply rows_text_prefix in Hrows as (n & lines & Hlines & -> & Hr).
  exists n, lines. by destruct w2.
Qed.

Lemma X14_witness :
  let env := Sample.env Sample.scenario_files in
  let labels :=
    run_labels env Sample.size_md5
      (get_all_files_in_directory env Sample.size_md5)
      (disk Sample.scenario) in
  ∃ n lines,
    Forall2 (λ label ln, line Sample.size_md5 label = Ok ln)
            (take n labels) lines
    ∧ report (run env Sample.size_md5 Sample.scenario).2
      = Some (header_line Sample.size_md5 +:+ unlines lines)
    ∧ match (run env Sample.size_md5 Sample.scenario).1 with
      | Ok _ => n = length labels
      | Raise e =>
          ∃ label, labels !! n = Some label
                   ∧ line Sample.size_md5 label = Raise e
      end.
Proof.
  apply (X14_table_is_rewritten (Sample.env Sample.scenario_files)
           Sample.size_md5 Sample.scenario).
  - intros l. reflexivity.
  - reflexivity.
Defined.

(** X23: without family labeling the program writes no file but its
    table and its log: every other path, and so every report, holds after
    [main] what it held before, however the run ends and in whatever order
    the tasks complete. *)
Theorem X23_only_table_and_log_are_written env input_folder cpu first_seen
    size md5 w :
  let config := Config.init input_folder false cpu first_seen size md5 in
  let w' := (main env input_folder false cpu first_seen size md5 w).2 in
  ∀ p, p ≠ Config.output_path config → p ≠ Config.log_path config →
       disk w' !! p = disk w !! p.
Proof.
  cbv zeta. intros p _ _. f_equal. rewrite main_general. cbv zeta.
  destruct (isdir env input_folder); [|by destruct w].
  destruct (writable env (Config.log_path _)); [|done].
  destruct (run_general env
              (Config.init input_folder false cpu first_seen size md5) w)
    as (labels & w1 & msgs & _ & Hd & _ & _ & _ & _ & ->).
  specialize (Hd eq_refl).
  destruct (writable env (Config.output_path _)); [|done].
  destruct (rows_text _ _ _) as [[[]|e] txt]; by destruct w1.
Qed.

Lemma X23_witness :
  disk (main (Sample.env Sample.scenario_files) "d" false false false
          true true Sample.scenario).2 !! "d/b.json"
  = disk Sample.scenario !! "d/b.json".
Proof.
  apply (X23_only_table_and_log_are_written
           (Sample.env Sample.scenario_files) "d" false false true true
           Sample.scenario "d/b.json").
  - intros H. vm_compute in H. discriminate H.
  - intros H. vm_compute in H. discriminate H.
Defined.

(** X16: what the program prints: the configuration error and nothing
    else when the input is not a directory; when the run succeeds, the
    elapsed time, then the location of the table and the location of the
    log; nothing at all when the run is ended by any other failure. *)
Theorem X16_console_output env input_folder family cpu first_seen size md5 w :
  let config := Config.init input_folder family cpu first_seen size md5 in
  let outcome := main env input_folder family cpu first_seen size md5 w in
  console outcome.2
  = console w
    ++ match outcome.1 with
       | Ok _ =>
           ["Execution Time: " +:+ execution_time env +:+ " seconds";
            "Output file path: " +:+ resolve env (Config.output_path config);
            "Error log path: " +:+ resolve env (Config.log_path config)]
       | Raise (SystemExit _) => ["Error: Input path must be a directory."]
       | Raise _ => []
       end.
Proof.
  cbv zeta. rewrite main_general. cbv zeta.
  destruct (isdir env input_folder); [|by destruct w].
  destruct (writable env (Config.log_path _));
    [|by simpl; rewrite app_nil_r].
  destruct (run_general env
              (Config.init input_folder family cpu first_seen size md5) w)
    as (labels & w1 & msgs & _ & _ & _ & _ & _ & Hc & ->).
  destruct (writable env (Config.output_path _));
    [|by simpl; rewrite app_nil_r].
  destruct (rows_text _ _ _) as [[[]|e] txt] eqn:Hrows.
  - simpl. by rewrite Hc.
  - apply rows_text_raises in Hrows as ->. destruct w1; simpl in *.
    by rewrite Hc, app_nil_r.
Qed.



(** ** What the lookups return *)

Section lookup_facts.
Context (env : Env) (config : Config.t).

Lemma subscript_raises_kind data path e :
  subscript data path = Raise e →
  (∃ k, e = KeyError k) ∨ (∃ msg, e = TypeError msg).
Proof.
  revert data. induction path as [|k path IH]; intros data; simpl; [done|].
  destruct (getitem data k) as [v|e'] eqn:Hget; [by apply IH|].
  intros [= <-]. unfold getitem in Hget.
  destruct data; simplify_eq; try (right; by eexists).
  destruct (dict_get _ _); simplify_eq. left. by eexists.
Qed.

Lemma field_step_found requested data path set l :
  (∀ msg, subscript data path ≠ Raise (TypeError msg)) →
  field_step requested data path set l
  = (Ok tt,
     if requested then
       match subscript data path with Ok v => set v l | Raise _ => l end
     else l).
Proof.
  intros Htype. unfold field_step. destruct requested; [|done].
  destruct (subscript data path) as [v|e] eqn:Hsub; [done|].
  destruct (subscript_raises_kind _ _ _ Hsub) as [[k ->]|[msg ->]]; [done|].
  by destruct (Htype msg).
Qed.

Lemma subscript_key d k msg :
  subscript (VDict d) [k] ≠ Raise (TypeError msg).
Proof. simpl. by destruct (dict_get d k). Qed.

Lemma subscript_not_object data k path :
  (∀ d, data ≠ VDict d) →
  ∃ msg, subscript data (k :: path) = Raise (TypeError msg).
Proof.
  intros Hdata. simpl. destruct data; simpl; try by eexists.
  by destruct (Hdata d).
Qed.

Lemma field_step_not_object requested data k path set l :
  (∀ d, data ≠ VDict d) →
  (field_step requested data (k :: path) set l).2 = l
  ∧ is_Ok (field_step requested data (k :: path) set l).1 = negb requested.
Proof.
  intros Hdata. unfold field_step. destruct requested; [|done].
  destruct (subscript_not_object data k path Hdata) as [msg ->]. done.
Qed.

Lemma fields_outcome_not_object data l :
  (∀ d, data ≠ VDict d) →
  (fields_outcome config data l).2 = l
  ∧ is_Ok (fields_outcome config data l).1
    = negb (Config.cpu config || Config.first_seen config
            || Config.size config || Config.md5 config).
Proof.
  intros Hdata. unfold fields_outcome, and_then.
  repeat match goal with
  | |- context [field_step ?r data (?k :: ?p) ?s ?l0] =>
      let H1 := fresh in let H2 := fresh in
      destruct (field_step_not_object r data k p s l0 Hdata) as [H1 H2];
      destruct (field_step r data (k :: p) s l0) as [[[]|?] ?];
      cbn [fst snd is_Ok] in H1, H2; subst;
      try (destruct r; [discriminate H2|]);
      try (destruct r; [|discriminate H2])
  end; cbn [fst snd is_Ok orb negb]; try done.
  all: by rewrite ?orb_true_r.
Qed.
End lookup_facts.

Section record_facts.
Context (env : Env) (config : Config.t).

Lemma field_step_raises_TypeError requested data path set l e l' :
  field_step requested data path set l = (Raise e, l') →
  ∃ msg, e = TypeError msg.
Proof.
  unfold field_step. destruct requested; [|done].
  destruct (subscript data path) as [v|e0] eqn:Hsub; [done|].
  destruct (subscript_raises_kind _ _ _ Hsub) as [[k ->]|[msg ->]]; [done|].
  intros [= <- _]. by eexists.
Qed.

Lemma and_then_raises_TypeError st k e l' :
  and_then st k = (Raise e, l') →
  (∀ l1, st = (Raise e, l1) → ∃ msg, e = TypeError msg) →
  (∀ l1 l2, k l1 = (Raise e, l2) → ∃ msg, e = TypeError msg) →
  ∃ msg, e = TypeError msg.
Proof.
  unfold and_then. destruct st as [[[]|e0] l0]; intros H Hst Hk.
  - by eapply Hk.
  - simplify_eq. by eapply (Hst l').
Qed.

(** The only error that leaves the lookup blocks is a [TypeError]. *)
Lemma fields_outcome_raises_TypeError data l e l' :
  fields_outcome config data l = (Raise e, l') → ∃ msg, e = TypeError msg.
Proof.
  unfold fields_outcome. intros H.
  repeat (eapply and_then_raises_TypeError; [exact H|..]; clear H;
          [intros ? H; by eapply field_step_raises_TypeError|intros ? ? H]).
  by eapply field_step_raises_TypeError.
Qed.

Lemma field_step_total requested data path set l :
  (requested = true → ∀ msg, subscript data path ≠ Raise (TypeError msg)) →
  field_step requested data path set l
  = (Ok tt,
     if requested then
       match subscript data path with Ok v => set v l | Raise _ => l end
     else l).
Proof.
  destruct requested; [|done]. intros H. by apply field_step_found, H.
Qed.
End record_facts.

(** X18: a report that parses to something other than an object (a list,
    a string, a number, [null]) gets a row whose looked-up cells are all
    empty; as soon as one of cpu, first_seen, size or md5 is requested the
    first lookup raises [TypeError], and the task logs the file as one
    that could not be processed. *)
Theorem X18_record_that_is_not_an_object env config json_file w data :
  load_outcome (disk w !! json_file) = Ok data →
  (∀ d, data ≠ VDict d) →
  ∃ label w',
    process_json env config json_file w = (Ok label, w')
    ∧ (∀ c, c ≠ ColFileName → c ≠ ColFamily → field_value c label = VNone)
    ∧ (Config.cpu config || Config.first_seen config
       || Config.size config || Config.md5 config = true →
       ∃ msg, ("Error processing JSON file (" +:+ json_file +:+ "): "
                 +:+ msg) ∈ errors w').
Proof.
  intros Hload Hdata. eexists _, _. split; [apply process_json_eq|].
  destruct (fields_outcome_not_object config data
              (enriched_label env config json_file) Hdata) as [Hl Hr].
  split.
  - intros c Hname Hfamily. unfold task_label. rewrite Hload.
    destruct (_ && _); [by destruct c|].
    rewrite Hl. by apply enriched_label_field.
  - intros Hreq. rewrite Hreq in Hr. unfold task_errors. rewrite Hload.
    destruct (Config.family config); [destruct (writable env _)|].
    + destruct (fields_outcome config data _) as [[[]|e] l'] eqn:Hfields;
        [done|].
      destruct (fields_outcome_raises_TypeError _ _ _ _ _ Hfields)
        as [msg ->].
      exists msg. destruct w. simpl. rewrite !elem_of_app.
      right; right. by apply list_elem_of_singleton.
    + exists (exn_str (write_error env json_file)). destruct w. simpl.
      apply elem_of_app; right. apply list_elem_of_singleton.
      unfold write_error. by destruct (left_behind env _).
    + destruct (fields_outcome config data _) as [[[]|e] l'] eqn:Hfields;
        [done|].
      destruct (fields_outcome_raises_TypeError _ _ _ _ _ Hfields)
        as [msg ->].
      exists msg. destruct w. simpl.
      apply elem_of_app; right. by apply list_elem_of_singleton.
Qed.

Lemma X18_witness :
  let w := Sample.world_with
             [("d/a.json", Readable (Encoded (VList [VInt 1])))] in
  ∃ label w',
    process_json (Sample.env ["a.json"]) Sample.size_md5 "d/a.json" w
    = (Ok label, w')
    ∧ (∀ c, c ≠ ColFileName → c ≠ ColFamily → field_value c label = VNone)
    ∧ (Config.cpu Sample.size_md5 || Config.first_seen Sample.size_md5
       || Config.size Sample.size_md5 || Config.md5 Sample.size_md5 = true →
       ∃ msg, ("Error processing JSON file (" +:+ "d/a.json" +:+ "): "
                 +:+ msg) ∈ errors w').
Proof.
  apply (X18_record_that_is_not_an_object (Sample.env ["a.json"])
           Sample.size_md5 "d/a.json" _ (VList [VInt 1])).
  - reflexivity.
  - intros d. discriminate.
Defined.

(** X20: with no report to process the run still succeeds: it logs
    nothing, writes a table that holds the header line only, and prints
    the elapsed time and the two locations. *)
Theorem X20_no_report_gives_header_only env config w :
  fair env →
  get_all_files_in_directory env config = [] →
  writable env (Config.output_path config) = true →
  ∃ w',
    run env config w = (Ok tt, w')
    ∧ report w' = Some (join_strs "," (header config) +:+ newline)
    ∧ errors w' = errors w
    ∧ console w'
      = console w
        ++ ["Execution Time: " +:+ execution_time env +:+ " seconds";
            "Output file path: " +:+ resolve env (Config.output_path config);
            "Error log path: " +:+ resolve env (Config.log_path config)].
Proof.
  intros Hfair Hfiles Hwritable.
  unfold run, label_files, bind, open_report. rewrite Hfiles.
  rewrite (proj1 (Permutation_nil_r _) (Hfair [])), Hwritable.
  cbn [run_tasks collect]. unfold sort_by_key. cbn [foldr for_each].
  unfold print, write_report, lift_result, modify, ret.
  cbv beta iota. destruct w. unfold set_report, add_line.
  cbn [disk errors report console default].
  cbn [foldr for_each id]. unfold ret. cbv beta iota.
  cbn [disk errors report console]. change ("" +:+ ?s) with s.
  eexists. split; [reflexivity|]. cbn [disk errors report console].
  split; [done|]. split; [done|]. by rewrite <-!app_assoc.
Qed.

Lemma X20_witness :
  ∃ w',
    run (Sample.env []) Sample.size_md5 (Sample.world_with []) = (Ok tt, w')
    ∧ report w' = Some ("file_name,size,md5" +:+ newline)
    ∧ errors w' = []
    ∧ console w'
      = ["Execution Time: 0.01 seconds";
         "Output file path: /work/d_report_info.csv";
         "Error log path: /work/d_error.log"].
Proof.
  apply (X20_no_report_gives_header_only (Sample.env []) Sample.size_md5
           (Sample.world_with [])).
  - intros l. reflexivity.
  - reflexivity.
  - reflexivity.
Defined.

(** X19: for a report that is an object, when the enrichment does not
    end the task and the path of the CPU type does not run into a value
    that is not an object, every requested field holds exactly what the
    record stores under its path, and [None] when a key of the path is
    absent; a field that is not requested stays [None]. *)
Theorem X19_lookups_return_stored_values env config json_file w d :
  load_outcome (disk w !! json_file) = Ok (VDict d) →
  (Config.family config = true → writable env (tmp_of json_file) = true) →
  (Config.cpu config = true →
   ∀ msg, subscript (VDict d) (lookup_path ColCPU) ≠ Raise (TypeError msg)) →
  ∃ label w',
    process_json env config json_file w = (Ok label, w')
    ∧ ∀ c, c ≠ ColFileName → c ≠ ColFamily →
        field_value c label
        = if requested config c then
            match subscript (VDict d) (lookup_path c) with
            | Ok v => v
            | Raise _ => VNone
            end
          else VNone.
Proof.
  intros Hload Hwritable Hcpu. eexists _, _. split; [apply process_json_eq|].
  intros c Hname Hfamily. unfold task_label. rewrite Hload.
  assert (Config.family config && negb (writable env (tmp_of json_file))
          = false) as ->.
  { destruct (Config.family config); [|done]. by rewrite Hwritable. }
  pose proof (enriched_label_field env config json_file) as Hnone.
  set (l0 := enriched_label env config json_file) in *.
  unfold fields_outcome.
  rewrite (field_step_total (Config.cpu config)) by exact Hcpu.
  cbn [and_then].
  rewrite (field_step_total (Config.first_seen config))
    by (intros _; apply subscript_key).
  cbn [and_then].
  rewrite (field_step_total (Config.size config))
    by (intros _; apply subscript_key).
  cbn [and_then].
  rewrite (field_step_total (Config.md5 config))
    by (intros _; apply subscript_key).
  cbn [snd].
  pose proof (Hnone ColCPU ltac:(done) ltac:(done)) as H1.
  pose proof (Hnone ColFirstSeen ltac:(done) ltac:(done)) as H2.
  pose proof (Hnone ColSize ltac:(done) ltac:(done)) as H3.
  pose proof (Hnone ColMD5 ltac:(done) ltac:(done)) as H4.
  clearbody l0. clear Hnone. destruct l0. cbn [field_value] in H1, H2, H3, H4.
  cbn [Label.cpu Label.first_seen Label.size Label.md5] in H1, H2, H3, H4.
  subst.
  destruct c; try done; cbn [requested lookup_path];
    generalize (subscript (VDict d)
                  ["additional_info"; "gandelf"; "header"; "machine"]);
    generalize (subscript (VDict d) ["first_seen"]);
    generalize (subscript (VDict d) ["size"]);
    generalize (subscript (VDict d) ["md5"]);
    intros r4 r3 r2 r1;
    destruct (Config.cpu config), (Config.first_seen config),
      (Config.size config), (Config.md5 config), r1, r2, r3, r4; done.
Qed.

Lemma X19_witness :
  let w := Sample.world_with
             [("d/a.json",
               Sample.report_of [("size", VInt 10); ("md5", VStr "aa")])] in
  ∃ label w',
    process_json (Sample.env ["a.json"]) Sample.all_columns "d/a.json" w
    = (Ok label, w')
    ∧ ∀ c, c ≠ ColFileName → c ≠ ColFamily →
        field_value c label
        = if requested Sample.all_columns c then
            match subscript (VDict [("size", VInt 10); ("md5", VStr "aa")])
                    (lookup_path c) with
            | Ok v => v
            | Raise _ => VNone
            end
          else VNone.
Proof.
  apply (X19_lookups_return_stored_values (Sample.env ["a.json"])
           Sample.all_columns "d/a.json" _
           [("size", VInt 10); ("md5", VStr "aa")]).
  - reflexivity.
  - reflexivity.
  - intros _ msg. discriminate.
Defined.
